(** * OSFS data path: [osfs_read] and [osfs_write] of src/file.c

    A shallow embedding of the two file operations of the OSFS kernel
    module.  Every file owns at most one block of the storage region
    [sb_info->data_blocks]; a read copies a slice of that block to the
    caller, a write allocates the block on first use, copies a slice from
    the caller into it and updates the size and the time stamps.

    C integers are mathematical integers with the conversions written
    out: [size_t] is the unsigned 64-bit type, [loff_t] and [ssize_t] the
    signed one (the kernel is built with wrapping signed arithmetic). *)

From Stdlib Require Import ZArith List Lia Bool.
From Stdlib.Strings Require Import Byte.
Import ListNotations.
Local Open Scope Z_scope.

(** ** C integer conversions *)

Module CInt.

Definition two63 : Z := 9223372036854775808.
Definition two64 : Z := 18446744073709551616.

(** Conversion to [size_t] (and to [unsigned long long], the type in
    which [loff_t + size_t] is computed). *)
Definition to_size_t (z : Z) : Z := z mod two64.

(** Conversion to [loff_t] / [ssize_t]. *)
Definition to_loff_t (z : Z) : Z := (z + two63) mod two64 - two63.

Definition is_size_t (z : Z) : Prop := 0 <= z < two64.
Definition is_loff_t (z : Z) : Prop := - two63 <= z < two63.

End CInt.
Import CInt.

Definition EFAULT : Z := 14.

(** ** Data model *)

(** [struct osfs_inode], the fields file.c uses.  The header that
    declares them is not part of src/; they are unsigned counters there
    and are kept as integers here. *)
Record osfs_inode : Type := mk_osfs_inode {
  i_size : Z;
  i_blocks : Z;
  i_block : Z;
  __i_mtime : Z;
  __i_ctime : Z
}.

(** [struct inode] of the VFS: its own copy of the size ([inode->i_size],
    named [vfs_i_size] here to keep it apart from the field above), the
    dirty mark left by [mark_inode_dirty], and [i_private]. *)
Record inode : Type := mk_inode {
  vfs_i_size : Z;
  i_dirty : bool;
  i_private : osfs_inode
}.

(** [sb_info->data_blocks], addressed by byte offset from its base.
    Offsets outside the region stand for whatever memory surrounds it:
    pointer arithmetic in C does not stop at the end of a block. *)
Definition storage : Type := Z -> byte.

(** What one call sees: the inode behind [filp], the cursor [*ppos] and
    the storage region. *)
Record osfs_state : Type := mk_state {
  st_inode : inode;
  st_pos : Z;
  st_data : storage
}.

(** A kernel-side byte range handed to [copy_to_user] / [copy_from_user]:
    first offset and length. *)
Definition access : Type := (Z * Z)%type.

Record read_out : Type := mk_read_out {
  r_ret : Z;
  r_state : osfs_state;
  r_data : list byte;
  r_access : option access
}.

Record write_out : Type := mk_write_out {
  w_ret : Z;
  w_state : osfs_state;
  w_access : option access
}.

(** The block allocator's answer for one call. *)
Record allocator : Type := mk_allocator {
  alloc_ret : Z;
  alloc_block : Z
}.

(** ** Collaborators *)

Definition slice (m : storage) (off n : Z) : list byte :=
  map (fun i => m (off + Z.of_nat i)) (seq 0 (Z.to_nat n)).

Definition blit (m : storage) (to : Z) (from : list byte) (n : Z) : storage :=
  fun a =>
    if (to <=? a) && (a <? to + n)
    then nth (Z.to_nat (a - to)) from x00
    else m a.

(** [copy_to_user(buf, from, n)]: the caller's buffer accepts [ucap]
    bytes.  Returns the bytes delivered and the number of bytes that
    could not be copied (0 on success). *)
Definition copy_to_user (ucap : Z) (m : storage) (from n : Z) : list byte * Z :=
  (slice m from (Z.min n ucap), Z.max 0 (n - ucap)).

(** [copy_from_user(to, buf, n)]: [buf] holds the readable bytes at the
    caller's address.  Returns the storage after the copy and the number
    of bytes that could not be copied (0 on success); the part of the
    destination that could not be filled is padded with zero bytes. *)
Definition copy_from_user (m : storage) (to : Z) (buf : list byte) (n : Z)
  : storage * Z :=
  (blit m to buf n, Z.max 0 (n - Z.of_nat (length buf))).

(** Modelled from the spec: [osfs_alloc_data_block], which is defined
    outside src/file.c.  It either yields a block index, stored through
    the pointer it is given, and returns 0, or it returns its error code
    and yields no index. *)
Definition osfs_alloc_data_block (a : allocator) (oi : osfs_inode)
  : Z * osfs_inode :=
  if alloc_ret a =? 0
  then (0, mk_osfs_inode (i_size oi) (i_blocks oi) (alloc_block a)
             (__i_mtime oi) (__i_ctime oi))
  else (alloc_ret a, oi).

Definition set_i_blocks (v : Z) (oi : osfs_inode) : osfs_inode :=
  mk_osfs_inode (i_size oi) v (i_block oi) (__i_mtime oi) (__i_ctime oi).

Definition set_i_size (v : Z) (oi : osfs_inode) : osfs_inode :=
  mk_osfs_inode v (i_blocks oi) (i_block oi) (__i_mtime oi) (__i_ctime oi).

Definition set_times (tm tc : Z) (oi : osfs_inode) : osfs_inode :=
  mk_osfs_inode (i_size oi) (i_blocks oi) (i_block oi) tm tc.

(** ** The two operations *)

Section Osfs.

(** The block size macro; its definition is not in src/file.c. *)
Variable BLOCK_SIZE : Z.

(** [sb_info->data_blocks + osfs_inode->i_block * BLOCK_SIZE + *ppos],
    as an offset from [data_blocks]. *)
Definition data_block (oi : osfs_inode) (pos : Z) : Z :=
  i_block oi * BLOCK_SIZE + pos.

(** file.c:33-34. *)
Definition read_len (oi : osfs_inode) (pos len : Z) : Z :=
  if i_size oi <? to_size_t (pos + len)
  then to_size_t (i_size oi - pos)
  else len.

(** file.c:18-44.  [ucap] is the extent of the caller's buffer. *)
Definition osfs_read (st : osfs_state) (ucap len : Z) : read_out :=
  let oi := i_private (st_inode st) in
  let pos := st_pos st in
  if i_blocks oi =? 0 then mk_read_out 0 st [] None
  else if i_size oi <=? pos then mk_read_out 0 st [] None
  else
    let len := read_len oi pos len in
    let from := data_block oi pos in
    let '(delivered, rest) := copy_to_user ucap (st_data st) from len in
    if negb (rest =? 0)
    then mk_read_out (- EFAULT) st delivered (Some (from, len))
    else
      mk_read_out (to_loff_t len)
        (mk_state (st_inode st) (to_loff_t (pos + len)) (st_data st))
        delivered (Some (from, len)).

(** file.c:84-86. *)
Definition write_len (pos len : Z) : Z :=
  if BLOCK_SIZE <? to_size_t (pos + len)
  then to_size_t (BLOCK_SIZE - pos)
  else len.

(** file.c:72-80: the return code of step 2 and the inode after it. *)
Definition write_alloc (a : allocator) (oi : osfs_inode) : Z * osfs_inode :=
  if i_blocks oi =? 0 then
    let '(ret, oi1) := osfs_alloc_data_block a oi in
    if negb (ret =? 0) then (ret, oi1) else (0, set_i_blocks 1 oi1)
  else (0, oi).

(** file.c:98-109: cursor, size, time stamps and dirty mark. *)
Definition write_meta (tm tc : Z) (ino : inode) (oi : osfs_inode) (pos' : Z)
  : inode :=
  let grow := i_size oi <? pos' in
  let oi1 := if grow then set_i_size pos' oi else oi in
  let vsz := if grow then pos' else vfs_i_size ino in
  mk_inode vsz true (set_times tm tc oi1).

(** file.c:60-113.  [a] is the allocator's answer, [tm] and [tc] the two
    readings of [current_time], [buf] the readable bytes at the
    caller's address. *)
Definition osfs_write (a : allocator) (tm tc : Z) (st : osfs_state)
    (buf : list byte) (len : Z) : write_out :=
  let ino := st_inode st in
  let pos := st_pos st in
  let '(ret, oi) := write_alloc a (i_private ino) in
  if negb (ret =? 0)
  then mk_write_out ret
         (mk_state (mk_inode (vfs_i_size ino) (i_dirty ino) oi) pos (st_data st))
         None
  else
    let len := write_len pos len in
    let to := data_block oi pos in
    let '(mem, rest) := copy_from_user (st_data st) to buf len in
    if negb (rest =? 0)
    then mk_write_out (- EFAULT)
           (mk_state (mk_inode (vfs_i_size ino) (i_dirty ino) oi) pos mem)
           (Some (to, len))
    else
      let pos' := to_loff_t (pos + len) in
      mk_write_out (to_loff_t len)
        (mk_state (write_meta tm tc ino oi pos') pos' mem)
        (Some (to, len)).

End Osfs.

(** ** Predicates used by the statements *)

(** Step 2 of [osfs_write] went through: the block was there, or the
    allocator gave one. *)
Definition alloc_ok (a : allocator) (oi : osfs_inode) : Prop :=
  i_blocks oi <> 0 \/ alloc_ret a = 0.

(** The inode as step 2 leaves it when it goes through. *)
Definition allocated (a : allocator) (oi : osfs_inode) : osfs_inode :=
  if i_blocks oi =? 0
  then mk_osfs_inode (i_size oi) 1 (alloc_block a) (__i_mtime oi) (__i_ctime oi)
  else oi.

(** The size recorded in both inodes lies between 0 and the block size. *)
Definition size_inv (BLOCK_SIZE : Z) (ino : inode) : Prop :=
  0 <= i_size (i_private ino) <= BLOCK_SIZE /\ 0 <= vfs_i_size ino <= BLOCK_SIZE.

(** The byte range of block [blk] contains the whole access [acc]. *)
Definition in_block (BLOCK_SIZE blk : Z) (acc : access) : bool :=
  let '(off, n) := acc in
  (blk * BLOCK_SIZE <=? off) && (off + n <=? blk * BLOCK_SIZE + BLOCK_SIZE).

(** An operation stayed inside block [blk]: it made no copy, or an empty
    one, or one inside the block. *)
Definition confined (BLOCK_SIZE blk : Z) (acc : option access) : bool :=
  match acc with
  | None => true
  | Some (off, n) => (n =? 0) || in_block BLOCK_SIZE blk (off, n)
  end.

(** ** Fixtures for the concrete runs *)

Module Fixtures.

Definition zero_mem : storage := fun _ => x00.

Definition fresh_inode : inode :=
  mk_inode 0 false (mk_osfs_inode 0 0 0 0 0).

(** A file that owns block [blk] and holds [sz] bytes. *)
Definition file_of (blk sz : Z) : inode :=
  mk_inode sz false (mk_osfs_inode sz 1 blk 0 0).


Definition grant (blk : Z) : allocator := mk_allocator 0 blk.
Definition exhausted : allocator := mk_allocator (-28) 0.

Definition summary (w : write_out) : Z * Z * Z * Z :=
  (w_ret w, st_pos (w_state w),
   i_size (i_private (st_inode (w_state w))),
   i_blocks (i_private (st_inode (w_state w)))).

End Fixtures.

(** ** Integer conversion facts *)

Lemma to_size_t_small (z : Z) : 0 <= z < two64 -> to_size_t z = z.
Proof. intros H. unfold to_size_t. now apply Z.mod_small. Qed.

Lemma to_size_t_range (z : Z) : is_size_t (to_size_t z).
Proof. unfold is_size_t, to_size_t. apply Z.mod_pos_bound. reflexivity. Qed.

Lemma to_loff_t_small (z : Z) : - two63 <= z < two63 -> to_loff_t z = z.
Proof.
  intros H. unfold to_loff_t.
  rewrite Z.mod_small; unfold two63, two64 in *; lia.
Qed.

Lemma to_loff_t_range (z : Z) : is_loff_t (to_loff_t z).
Proof.
  unfold is_loff_t, to_loff_t.
  pose proof (Z.mod_pos_bound (z + two63) two64 eq_refl) as H.
  unfold two63, two64 in *. lia.
Qed.

(** A [size_t] of 2^63 or more reads as a negative [ssize_t]. *)
Lemma to_loff_t_high (z : Z) : two63 <= z < two64 -> to_loff_t z = z - two64.
Proof.
  intros H. unfold to_loff_t.
  rewrite <- (Z.mod_unique (z + two63) two64 1 (z - two63));
    unfold two63, two64 in *; lia.
Qed.

(** Adding a multiple of 2^64 does not change either conversion. *)
Lemma to_size_t_wrap (z k : Z) : to_size_t (z + k * two64) = to_size_t z.
Proof. unfold to_size_t. apply Z.mod_add. discriminate. Qed.

Lemma to_loff_t_wrap (z k : Z) : to_loff_t (z + k * two64) = to_loff_t z.
Proof.
  unfold to_loff_t.
  replace (z + k * two64 + two63) with (z + two63 + k * two64) by ring.
  rewrite Z.mod_add by discriminate. reflexivity.
Qed.

(** [x + to_size_t y] and [x + y] convert to the same [loff_t]. *)
Lemma to_loff_t_add_size_t (x y : Z) :
  to_loff_t (x + to_size_t y) = to_loff_t (x + y).
Proof.
  unfold to_size_t.
  rewrite (Z.div_mod y two64) at 2 by discriminate.
  replace (x + (two64 * (y / two64) + y mod two64))
    with (x + y mod two64 + (y / two64) * two64) by ring.
  now rewrite to_loff_t_wrap.
Qed.

(** ** Concrete runs *)

Module Runs.

Import Fixtures.

(** 500 bytes at cursor 0 of an unallocated file. *)
Example write_500 :
  summary (osfs_write 4096 (grant 3) 7 7 (mk_state fresh_inode 0 zero_mem)
             (repeat x41 500) 500)
  = (500, 500, 500, 1).
Proof. vm_compute. reflexivity. Qed.

(** 200 bytes at cursor 4000: 96 fit. *)
Example write_4000 :
  summary (osfs_write 4096 (grant 3) 7 7
             (mk_state (file_of 2 100) 4000 zero_mem) (repeat x41 200) 200)
  = (96, 4096, 4096, 1).
Proof. vm_compute. reflexivity. Qed.

(** Reading at the end of a 500-byte file. *)
Example read_at_eof :
  osfs_read 4096 (mk_state (file_of 2 500) 500 zero_mem) 100 100
  = mk_read_out 0 (mk_state (file_of 2 500) 500 zero_mem) [] None.
Proof. reflexivity. Qed.

(** Three bytes written at cursor 2 and read back. *)
Example write_then_read :
  let w := osfs_write 16 (grant 1) 7 7 (mk_state fresh_inode 2 zero_mem)
             [x61; x62; x63] 3 in
  let r := osfs_read 16 (mk_state (st_inode (w_state w)) 2 (st_data (w_state w)))
             3 3 in
  (w_ret w, r_ret r, r_data r, r_access r)
  = (3, 3, [x61; x62; x63], Some (18, 3)).
Proof. vm_compute. reflexivity. Qed.

(** One byte at cursor 4097, one past the end of the block: the length
    handed to the copy is 2^64 - 1 and the call ends in [-EFAULT]. *)
Example write_past_block :
  let w := osfs_write 4096 (grant 3) 7 7
             (mk_state (file_of 2 100) 4097 zero_mem) [x41] 1 in
  (w_ret w, w_access w, st_pos (w_state w))
  = (-14, Some (2 * 4096 + 4097, 18446744073709551615), 4097).
Proof. vm_compute. reflexivity. Qed.

(** One byte at cursor 4096, the end of the block: nothing is copied. *)
Example write_at_block_end :
  let w := osfs_write 4096 (grant 3) 7 7
             (mk_state (file_of 2 100) 4096 zero_mem) [x41] 1 in
  (w_ret w, w_access w, st_pos (w_state w))
  = (0, Some (2 * 4096 + 4096, 0), 4096).
Proof. vm_compute. reflexivity. Qed.

End Runs.

(** ** Path lemmas for [osfs_write] *)

Section WritePaths.

Variable BLOCK_SIZE : Z.
Variables (a : allocator) (tm tc : Z) (st : osfs_state).
Variables (buf : list byte) (len : Z).

Lemma write_alloc_ok (oi : osfs_inode) :
  alloc_ok a oi -> write_alloc a oi = (0, allocated a oi).
Proof.
  unfold alloc_ok, write_alloc, allocated, osfs_alloc_data_block.
  intros [H | H].
  - apply Z.eqb_neq in H. now rewrite H.
  - destruct (i_blocks oi =? 0); [| reflexivity].
    rewrite H. reflexivity.
Qed.

Lemma write_alloc_err (oi : osfs_inode) :
  i_blocks oi = 0 -> alloc_ret a <> 0 -> write_alloc a oi = (alloc_ret a, oi).
Proof.
  unfold write_alloc, osfs_alloc_data_block. intros H0 Hr.
  rewrite H0. cbn. apply Z.eqb_neq in Hr. rewrite Hr. cbn.
  now rewrite Hr.
Qed.

Lemma inode_eta (i : inode) :
  mk_inode (vfs_i_size i) (i_dirty i) (i_private i) = i.
Proof. now destruct i. Qed.

Lemma state_eta (s : osfs_state) :
  mk_state (st_inode s) (st_pos s) (st_data s) = s.
Proof. now destruct s. Qed.

(** The allocator refused: nothing happened. *)
Lemma osfs_write_enospc :
  i_blocks (i_private (st_inode st)) = 0 -> alloc_ret a <> 0 ->
  osfs_write BLOCK_SIZE a tm tc st buf len = mk_write_out (alloc_ret a) st None.
Proof.
  intros H0 Hr. unfold osfs_write.
  rewrite (write_alloc_err _ H0 Hr).
  apply Z.eqb_neq in Hr. rewrite Hr. cbn.
  rewrite inode_eta. now rewrite state_eta.
Qed.

(** The copy faulted. *)
Lemma osfs_write_efault :
  alloc_ok a (i_private (st_inode st)) ->
  Z.of_nat (length buf) < write_len BLOCK_SIZE (st_pos st) len ->
  osfs_write BLOCK_SIZE a tm tc st buf len
  = let oi := allocated a (i_private (st_inode st)) in
    let n := write_len BLOCK_SIZE (st_pos st) len in
    let to := data_block BLOCK_SIZE oi (st_pos st) in
    mk_write_out (- EFAULT)
      (mk_state (mk_inode (vfs_i_size (st_inode st)) (i_dirty (st_inode st)) oi)
         (st_pos st) (blit (st_data st) to buf n))
      (Some (to, n)).
Proof.
  intros Ha Hlt. unfold osfs_write.
  rewrite (write_alloc_ok _ Ha). cbn.
  destruct (Z.eqb_spec
              (Z.max 0 (write_len BLOCK_SIZE (st_pos st) len
                        - Z.of_nat (length buf))) 0)
    as [E | E]; [lia | reflexivity].
Qed.

(** The copy went through. *)
Lemma osfs_write_done :
  alloc_ok a (i_private (st_inode st)) ->
  write_len BLOCK_SIZE (st_pos st) len <= Z.of_nat (length buf) ->
  osfs_write BLOCK_SIZE a tm tc st buf len
  = let oi := allocated a (i_private (st_inode st)) in
    let n := write_len BLOCK_SIZE (st_pos st) len in
    let to := data_block BLOCK_SIZE oi (st_pos st) in
    let pos' := to_loff_t (st_pos st + n) in
    mk_write_out (to_loff_t n)
      (mk_state (write_meta tm tc (st_inode st) oi pos') pos'
         (blit (st_data st) to buf n))
      (Some (to, n)).
Proof.
  intros Ha Hle. unfold osfs_write.
  rewrite (write_alloc_ok _ Ha). cbn.
  destruct (Z.eqb_spec
              (Z.max 0 (write_len BLOCK_SIZE (st_pos st) len
                        - Z.of_nat (length buf))) 0)
    as [E | E]; [reflexivity | lia].
Qed.

End WritePaths.

(** ** Reading an unallocated file *)

Lemma osfs_read_no_block (BLOCK_SIZE : Z) (st : osfs_state) (ucap len : Z) :
  i_blocks (i_private (st_inode st)) = 0 ->
  osfs_read BLOCK_SIZE st ucap len = mk_read_out 0 st [] None.
Proof.
  intros H. unfold osfs_read. now rewrite H.
Qed.

(** C6.  A file with [i_blocks = 0] reads as end-of-file: for every
    cursor, every requested length and every caller buffer the read
    returns 0 (not an error code), hands out no bytes, makes no copy (so it
    cannot fault) and leaves the inode, the cursor and the storage as they
    were. *)
Theorem osfs_read_unallocated (BLOCK_SIZE : Z) (st : osfs_state) (ucap len : Z) :
  i_blocks (i_private (st_inode st)) = 0 ->
  osfs_read BLOCK_SIZE st ucap len = mk_read_out 0 st [] None.
Proof.
  intros H. now apply osfs_read_no_block.
Qed.

Lemma osfs_read_unallocated_witness :
  i_blocks (i_private (st_inode (mk_state Fixtures.fresh_inode 10 Fixtures.zero_mem))) = 0
  /\ osfs_read 4096 (mk_state Fixtures.fresh_inode 10 Fixtures.zero_mem) 10 10
     = mk_read_out 0 (mk_state Fixtures.fresh_inode 10 Fixtures.zero_mem) [] None.
Proof.
  split; [reflexivity |].
  apply (osfs_read_unallocated 4096
           (mk_state Fixtures.fresh_inode 10 Fixtures.zero_mem) 10 10).
  reflexivity.
Defined.

(** ** Allocation failure *)

(** C7.  When the allocator refuses a block to an unallocated file, the
    write returns the allocator's error code, every field of the inode
    (block count, block index, size, time stamps, dirty mark), the cursor
    and the storage are exactly as before, no copy is made, and any read
    that follows returns 0 bytes. *)
Theorem osfs_write_alloc_failed (BLOCK_SIZE : Z) (a : allocator) (tm tc : Z)
    (st : osfs_state) (buf : list byte) (len : Z) :
  i_blocks (i_private (st_inode st)) = 0 ->
  alloc_ret a <> 0 ->
  let w := osfs_write BLOCK_SIZE a tm tc st buf len in
  w_ret w = alloc_ret a /\ w_state w = st /\ w_access w = None /\
  forall ucap rlen,
    osfs_read BLOCK_SIZE (w_state w) ucap rlen = mk_read_out 0 st [] None.
Proof.
  intros H0 Hr w. subst w.
  rewrite (osfs_write_enospc BLOCK_SIZE a tm tc st buf len H0 Hr). cbn.
  repeat split. intros ucap rlen. now apply osfs_read_no_block.
Qed.

Lemma osfs_write_alloc_failed_witness :
  let st := mk_state Fixtures.fresh_inode 0 Fixtures.zero_mem in
  let w := osfs_write 4096 Fixtures.exhausted 7 7 st [x61; x62] 2 in
  w_ret w = -28 /\ w_state w = st /\ w_access w = None /\
  forall ucap rlen, osfs_read 4096 (w_state w) ucap rlen = mk_read_out 0 st [] None.
Proof.
  intros st.
  apply (osfs_write_alloc_failed 4096 Fixtures.exhausted 7 7 st [x61; x62] 2).
  - reflexivity.
  - cbn. lia.
Defined.

(** ** Copy fault during a write *)

(** C8.  When step 2 went through and the caller's buffer cannot supply
    the bytes asked of it, the write returns [-EFAULT]; the inode keeps
    what step 2 did (on a file that had no block: [i_blocks = 1] and
    [i_block] the index the allocator gave), while the size, the time
    stamps, the dirty mark and the cursor are those from before the
    call. *)
Theorem osfs_write_copy_fault (BLOCK_SIZE : Z) (a : allocator) (tm tc : Z)
    (st : osfs_state) (buf : list byte) (len : Z) :
  alloc_ok a (i_private (st_inode st)) ->
  Z.of_nat (length buf) < write_len BLOCK_SIZE (st_pos st) len ->
  let oi := i_private (st_inode st) in
  let w := osfs_write BLOCK_SIZE a tm tc st buf len in
  let oi' := i_private (st_inode (w_state w)) in
  w_ret w = - EFAULT /\
  (i_blocks oi = 0 -> i_blocks oi' = 1 /\ i_block oi' = alloc_block a) /\
  (i_blocks oi <> 0 -> oi' = oi) /\
  i_size oi' = i_size oi /\
  __i_mtime oi' = __i_mtime oi /\ __i_ctime oi' = __i_ctime oi /\
  i_dirty (st_inode (w_state w)) = i_dirty (st_inode st) /\
  vfs_i_size (st_inode (w_state w)) = vfs_i_size (st_inode st) /\
  st_pos (w_state w) = st_pos st.
Proof.
  intros Ha Hlt oi w oi'. subst w oi'.
  rewrite (osfs_write_efault BLOCK_SIZE a tm tc st buf len Ha Hlt). cbn.
  fold oi. unfold allocated.
  destruct (Z.eqb_spec (i_blocks oi) 0) as [E | E]; cbn;
    repeat split; auto; intros; congruence.
Qed.

Lemma osfs_write_copy_fault_witness :
  let st := mk_state Fixtures.fresh_inode 0 Fixtures.zero_mem in
  let w := osfs_write 4096 (Fixtures.grant 3) 7 7 st [x61; x62] 5 in
  let oi' := i_private (st_inode (w_state w)) in
  w_ret w = - EFAULT /\ i_blocks oi' = 1 /\ i_block oi' = 3.
Proof.
  intros st w oi'.
  destruct (osfs_write_copy_fault 4096 (Fixtures.grant 3) 7 7 st [x61; x62] 5)
    as (Hr & Hb & _).
  - right. reflexivity.
  - vm_compute. reflexivity.
  - split; [exact Hr | apply Hb; reflexivity].
Defined.

(** ** Where the cursor ends up after a write *)

(** Whatever the cursor and the requested length, the cursor that step 5
    computes lies between 0 and the block size. *)
Lemma write_new_pos_range (BLOCK_SIZE pos len : Z) :
  0 <= BLOCK_SIZE < two63 ->
  0 <= to_loff_t (pos + write_len BLOCK_SIZE pos len) <= BLOCK_SIZE.
Proof.
  intros HB. unfold write_len.
  destruct (Z.ltb_spec BLOCK_SIZE (to_size_t (pos + len))) as [Hc | Hc].
  - rewrite to_loff_t_add_size_t.
    replace (pos + (BLOCK_SIZE - pos)) with BLOCK_SIZE by ring.
    rewrite to_loff_t_small; unfold two63 in *; lia.
  - pose proof (to_size_t_range (pos + len)) as Hr. unfold is_size_t in Hr.
    assert (E : to_loff_t (pos + len) = to_size_t (pos + len)).
    { unfold to_size_t in *.
      rewrite (Z.div_mod (pos + len) two64) at 1 by discriminate.
      replace (two64 * ((pos + len) / two64) + (pos + len) mod two64)
        with ((pos + len) mod two64 + ((pos + len) / two64) * two64) by ring.
      rewrite to_loff_t_wrap. apply to_loff_t_small.
      unfold two63 in *. lia. }
    rewrite E. lia.
Qed.

(** With a cursor inside the block and a length that fits [ssize_t], the
    effective length is the smaller of the request and the room left. *)
Lemma write_len_in_block (BLOCK_SIZE pos len : Z) :
  0 <= pos <= BLOCK_SIZE -> BLOCK_SIZE < two63 -> 0 <= len < two63 ->
  write_len BLOCK_SIZE pos len = Z.min len (BLOCK_SIZE - pos).
Proof.
  intros Hp HB Hl. unfold write_len.
  rewrite !to_size_t_small by (unfold two63, two64 in *; lia).
  destruct (Z.ltb_spec BLOCK_SIZE (pos + len)); lia.
Qed.

(** ** Size after a write *)

(** C9.  A write whose allocation and copy both went through leaves the
    cursor at [pos'], the old cursor advanced by the bytes copied; the
    size becomes [pos'] when [pos'] exceeds the old size and is the old
    size otherwise, so it never decreases. *)
Theorem osfs_write_size_grows (BLOCK_SIZE : Z) (a : allocator) (tm tc : Z)
    (st : osfs_state) (buf : list byte) (len : Z) :
  alloc_ok a (i_private (st_inode st)) ->
  write_len BLOCK_SIZE (st_pos st) len <= Z.of_nat (length buf) ->
  let oi := i_private (st_inode st) in
  let w := osfs_write BLOCK_SIZE a tm tc st buf len in
  let oi' := i_private (st_inode (w_state w)) in
  let pos' := st_pos (w_state w) in
  pos' = to_loff_t (st_pos st + write_len BLOCK_SIZE (st_pos st) len) /\
  i_size oi' = (if i_size oi <? pos' then pos' else i_size oi) /\
  i_size oi <= i_size oi'.
Proof.
  intros Ha Hle oi w oi' pos'. subst w oi' pos'.
  rewrite (osfs_write_done BLOCK_SIZE a tm tc st buf len Ha Hle). cbn.
  fold oi.
  assert (Hs : i_size (allocated a oi) = i_size oi).
  { unfold allocated. now destruct (i_blocks oi =? 0). }
  unfold write_meta. rewrite Hs.
  set (p := to_loff_t (st_pos st + write_len BLOCK_SIZE (st_pos st) len)).
  destruct (Z.ltb_spec (i_size oi) p) as [Hg | Hg]; cbn; rewrite ?Hs; lia.
Qed.

Lemma osfs_write_size_grows_witness :
  let st := mk_state (Fixtures.file_of 2 100) 4000 Fixtures.zero_mem in
  let w := osfs_write 4096 (Fixtures.grant 3) 7 7 st (repeat x41 200) 200 in
  st_pos (w_state w) = 4096 /\
  i_size (i_private (st_inode (w_state w))) = 4096 /\
  100 <= i_size (i_private (st_inode (w_state w))).
Proof.
  intros st w.
  destruct (osfs_write_size_grows 4096 (Fixtures.grant 3) 7 7 st (repeat x41 200) 200)
    as (Hp & Hs & Hm).
  - left. cbn. lia.
  - vm_compute. discriminate.
  - subst w. split; [| split].
    + rewrite Hp. reflexivity.
    + rewrite Hs, Hp. reflexivity.
    + exact Hm.
Defined.

(** X8.  The size never decreases, whichever way the write ends
    (allocation error, copy fault or byte count), for every cursor and
    length. *)
Lemma osfs_write_size_monotone (BLOCK_SIZE : Z) (a : allocator) (tm tc : Z)
    (st : osfs_state) (buf : list byte) (len : Z) :
  i_size (i_private (st_inode st))
  <= i_size (i_private (st_inode (w_state (osfs_write BLOCK_SIZE a tm tc st buf len)))).
Proof.
  set (oi := i_private (st_inode st)).
  assert (Hs : i_size (allocated a oi) = i_size oi).
  { unfold allocated. now destruct (i_blocks oi =? 0). }
  assert (Hcopy : alloc_ok a oi ->
            i_size oi <= i_size (i_private (st_inode (w_state
                           (osfs_write BLOCK_SIZE a tm tc st buf len))))).
  { intros Ha.
    destruct (Z_lt_le_dec (Z.of_nat (length buf))
                (write_len BLOCK_SIZE (st_pos st) len)) as [Hf | Hd].
    - rewrite (osfs_write_efault BLOCK_SIZE a tm tc st buf len Ha Hf). cbn.
      fold oi. lia.
    - rewrite (osfs_write_done BLOCK_SIZE a tm tc st buf len Ha Hd). cbn.
      fold oi. unfold write_meta. rewrite Hs.
      destruct (Z.ltb_spec (i_size oi)
                  (to_loff_t (st_pos st + write_len BLOCK_SIZE (st_pos st) len)));
        cbn; rewrite ?Hs; lia. }
  destruct (Z.eq_dec (i_blocks oi) 0) as [E0 | E0].
  - destruct (Z.eq_dec (alloc_ret a) 0) as [Er | Er].
    + apply Hcopy. now right.
    + rewrite (osfs_write_enospc BLOCK_SIZE a tm tc st buf len E0 Er). cbn.
      fold oi. lia.
  - apply Hcopy. now left.
Qed.

(** ** A zero-length write on an unallocated file *)

(** C10.  On a file without a block, with the cursor between 0 and the
    block size and the allocator granting a block, a write of length 0
    returns 0 and copies no byte, yet it records the block index, sets
    [i_blocks] to 1, stamps both times and marks the inode dirty; the
    cursor stays where it was. *)
Theorem osfs_write_zero_length (BLOCK_SIZE : Z) (a : allocator) (tm tc : Z)
    (st : osfs_state) (buf : list byte) :
  0 < BLOCK_SIZE < two63 ->
  i_blocks (i_private (st_inode st)) = 0 ->
  alloc_ret a = 0 ->
  0 <= st_pos st <= BLOCK_SIZE ->
  let w := osfs_write BLOCK_SIZE a tm tc st buf 0 in
  let ino' := st_inode (w_state w) in
  w_ret w = 0 /\
  w_access w = Some (alloc_block a * BLOCK_SIZE + st_pos st, 0) /\
  i_blocks (i_private ino') = 1 /\
  i_block (i_private ino') = alloc_block a /\
  __i_mtime (i_private ino') = tm /\
  __i_ctime (i_private ino') = tc /\
  i_dirty ino' = true /\
  st_pos (w_state w) = st_pos st.
Proof.
  intros HB H0 Hr Hp w ino'. subst w ino'.
  assert (Ha : alloc_ok a (i_private (st_inode st))) by (now right).
  assert (Hn : write_len BLOCK_SIZE (st_pos st) 0 = 0).
  { rewrite write_len_in_block; unfold two63 in *; lia. }
  rewrite (osfs_write_done BLOCK_SIZE a tm tc st buf 0 Ha) by (rewrite Hn; lia).
  rewrite Hn. cbn -[to_loff_t].
  unfold allocated, write_meta, data_block. rewrite H0. cbn -[to_loff_t].
  rewrite Z.add_0_r.
  rewrite (to_loff_t_small (st_pos st)) by (unfold two63 in *; lia).
  rewrite (to_loff_t_small 0) by (unfold two63; lia).
  destruct (i_size (i_private (st_inode st)) <? st_pos st); cbn; repeat split.
Qed.

Lemma osfs_write_zero_length_witness :
  let st := mk_state Fixtures.fresh_inode 0 Fixtures.zero_mem in
  let w := osfs_write 4096 (Fixtures.grant 3) 11 12 st [] 0 in
  let ino' := st_inode (w_state w) in
  w_ret w = 0 /\
  w_access w = Some (3 * 4096 + 0, 0) /\
  i_blocks (i_private ino') = 1 /\
  i_block (i_private ino') = 3 /\
  __i_mtime (i_private ino') = 11 /\
  __i_ctime (i_private ino') = 12 /\
  i_dirty ino' = true /\
  st_pos (w_state w) = 0.
Proof.
  intros st.
  apply (osfs_write_zero_length 4096 (Fixtures.grant 3) 11 12 st []).
  - unfold two63. lia.
  - reflexivity.
  - reflexivity.
  - cbn. lia.
Defined.

(** ** The size invariant *)

Lemma write_meta_size_inv (BLOCK_SIZE tm tc : Z) (ino : inode) (oi : osfs_inode)
    (pos' : Z) :
  0 <= pos' <= BLOCK_SIZE ->
  0 <= i_size oi <= BLOCK_SIZE -> 0 <= vfs_i_size ino <= BLOCK_SIZE ->
  size_inv BLOCK_SIZE (write_meta tm tc ino oi pos').
Proof.
  intros Hp Ho Hv. unfold size_inv, write_meta.
  destruct (i_size oi <? pos'); cbn; lia.
Qed.

Lemma osfs_write_size_inv (BLOCK_SIZE : Z) (a : allocator) (tm tc : Z)
    (st : osfs_state) (buf : list byte) (len : Z) :
  0 <= BLOCK_SIZE < two63 ->
  size_inv BLOCK_SIZE (st_inode st) ->
  size_inv BLOCK_SIZE (st_inode (w_state (osfs_write BLOCK_SIZE a tm tc st buf len))).
Proof.
  intros HB [Ho Hv].
  set (oi := i_private (st_inode st)) in *.
  assert (Hs : i_size (allocated a oi) = i_size oi).
  { unfold allocated. now destruct (i_blocks oi =? 0). }
  assert (Hcopy : alloc_ok a oi ->
            size_inv BLOCK_SIZE
              (st_inode (w_state (osfs_write BLOCK_SIZE a tm tc st buf len)))).
  { intros Ha.
    destruct (Z_lt_le_dec (Z.of_nat (length buf))
                (write_len BLOCK_SIZE (st_pos st) len)) as [Hf | Hd].
    - rewrite (osfs_write_efault BLOCK_SIZE a tm tc st buf len Ha Hf).
      unfold size_inv. cbn. fold oi. rewrite Hs. lia.
    - rewrite (osfs_write_done BLOCK_SIZE a tm tc st buf len Ha Hd).
      cbn -[to_loff_t]. fold oi.
      apply write_meta_size_inv; rewrite ?Hs; auto.
      now apply write_new_pos_range. }
  destruct (Z.eq_dec (i_blocks oi) 0) as [E0 | E0].
  - destruct (Z.eq_dec (alloc_ret a) 0) as [Er | Er].
    + apply Hcopy. now right.
    + rewrite (osfs_write_enospc BLOCK_SIZE a tm tc st buf len E0 Er).
      now split.
  - apply Hcopy. now left.
Qed.

(** A read never touches the inode or the storage. *)
Lemma osfs_read_keeps_inode (BLOCK_SIZE : Z) (st : osfs_state) (ucap len : Z) :
  st_inode (r_state (osfs_read BLOCK_SIZE st ucap len)) = st_inode st /\
  st_data (r_state (osfs_read BLOCK_SIZE st ucap len)) = st_data st.
Proof.
  unfold osfs_read.
  destruct (i_blocks (i_private (st_inode st)) =? 0); [now split |].
  destruct (i_size (i_private (st_inode st)) <=? st_pos st); [now split |].
  cbn.
  destruct (negb _); now split.
Qed.

(** C3.  From any state in which the recorded size lies between 0 and
    the block size, every write (whether it ends with an allocation
    error, a copy fault or a byte count) and every read (likewise) leads
    to a state in which it still does, for every cursor, requested length
    and caller buffer. *)
Theorem osfs_size_invariant (BLOCK_SIZE : Z) (a : allocator) (tm tc : Z)
    (st : osfs_state) (buf : list byte) (ucap len : Z) :
  0 <= BLOCK_SIZE < two63 ->
  size_inv BLOCK_SIZE (st_inode st) ->
  size_inv BLOCK_SIZE (st_inode (w_state (osfs_write BLOCK_SIZE a tm tc st buf len)))
  /\ size_inv BLOCK_SIZE (st_inode (r_state (osfs_read BLOCK_SIZE st ucap len))).
Proof.
  intros HB Hi. split.
  - now apply osfs_write_size_inv.
  - destruct (osfs_read_keeps_inode BLOCK_SIZE st ucap len) as [E _].
    now rewrite E.
Qed.

Lemma osfs_size_invariant_witness :
  let st := mk_state (Fixtures.file_of 2 100) 4000 Fixtures.zero_mem in
  size_inv 4096
    (st_inode (w_state (osfs_write 4096 (Fixtures.grant 3) 7 7 st (repeat x41 200) 200)))
  /\ size_inv 4096 (st_inode (r_state (osfs_read 4096 st 50 50))).
Proof.
  intros st.
  apply (osfs_size_invariant 4096 (Fixtures.grant 3) 7 7 st (repeat x41 200) 50 200).
  - unfold two63. lia.
  - unfold size_inv. cbn. lia.
Defined.

(** ** How many bytes a read returns *)

(** The effective read length at a cursor below the size: the smaller of
    the request and the bytes left, unless [*ppos + len] wraps around,
    which takes a request of at least 2^63 bytes and leaves it as it is. *)
Lemma read_len_cases (oi : osfs_inode) (pos len : Z) :
  0 <= pos < i_size oi -> i_size oi < two63 -> is_size_t len ->
  read_len oi pos len = Z.min len (i_size oi - pos)
  \/ (two63 <= len /\ read_len oi pos len = len).
Proof.
  unfold is_size_t, read_len. intros Hp Hs Hl.
  destruct (Z_lt_le_dec (pos + len) two64) as [Hn | Hw].
  - left. rewrite (to_size_t_small (pos + len)) by lia.
    destruct (Z.ltb_spec (i_size oi) (pos + len)).
    + rewrite to_size_t_small by (unfold two63, two64 in *; lia). lia.
    + lia.
  - assert (E : to_size_t (pos + len) = pos + len - two64).
    { unfold to_size_t. symmetry. apply (Z.mod_unique _ _ 1).
      - left. unfold two63, two64 in *. lia.
      - ring. }
    rewrite E.
    destruct (Z.ltb_spec (i_size oi) (pos + len - two64)).
    + unfold two63, two64 in *. lia.
    + right. unfold two63, two64 in *. lia.
Qed.

(** C5.  On a file that has its block and whose size is within the block
    size: a read at a cursor at or past the size returns 0, copies
    nothing and leaves the cursor alone; a read at a cursor in
    [0, size) that returns a byte count returns exactly
    [min len (size - cursor)], delivers exactly those bytes of the block
    (none past the size) and advances the cursor by that count; and it
    does return a byte count whenever the request fits [ssize_t] and the
    caller's buffer takes that many bytes. *)
Theorem osfs_read_length (BLOCK_SIZE : Z) (st : osfs_state) (ucap len : Z) :
  i_blocks (i_private (st_inode st)) <> 0 ->
  0 <= i_size (i_private (st_inode st)) <= BLOCK_SIZE ->
  BLOCK_SIZE < two63 ->
  is_size_t len ->
  let oi := i_private (st_inode st) in
  let pos := st_pos st in
  let r := osfs_read BLOCK_SIZE st ucap len in
  let n := Z.min len (i_size oi - pos) in
  (i_size oi <= pos -> r = mk_read_out 0 st [] None) /\
  (0 <= pos < i_size oi -> 0 <= r_ret r ->
     r_ret r = n /\
     r_data r = slice (st_data st) (i_block oi * BLOCK_SIZE + pos) n /\
     Z.of_nat (length (r_data r)) = n /\
     st_pos (r_state r) = pos + n /\ pos + n <= i_size oi) /\
  (0 <= pos < i_size oi -> len < two63 -> n <= ucap -> r_ret r = n).
Proof.
  intros Hb Hs HB Hl oi pos r n. subst r.
  fold oi in Hb, Hs. apply Z.eqb_neq in Hb.
  unfold osfs_read. fold oi. fold pos. rewrite Hb.
  split; [| split].
  - intros Hge. apply Z.leb_le in Hge. now rewrite Hge.
  - intros Hp. destruct (Z.leb_spec (i_size oi) pos) as [? | _]; [lia |].
    unfold copy_to_user, data_block. fold oi.
    destruct (read_len_cases oi pos len) as [E | [Hbig E]];
      auto; try lia; rewrite E; fold n.
    + destruct (Z.eqb_spec (Z.max 0 (n - ucap)) 0) as [Hz | Hz]; cbn -[to_loff_t].
      * intros _. unfold is_size_t in Hl.
        rewrite !to_loff_t_small by (unfold two63 in *; lia).
        replace (Z.min n ucap) with n by lia.
        repeat split; try lia.
        unfold slice. rewrite length_map, length_seq. lia.
      * unfold EFAULT. lia.
    + destruct (Z.eqb_spec (Z.max 0 (len - ucap)) 0) as [Hz | Hz]; cbn -[to_loff_t].
      * intros Hret. exfalso. unfold is_size_t in Hl.
        rewrite (to_loff_t_high len) in Hret; unfold two63, two64 in *; lia.
      * unfold EFAULT. lia.
  - intros Hp Hlen Hcap.
    destruct (Z.leb_spec (i_size oi) pos) as [? | _]; [lia |].
    unfold copy_to_user.
    destruct (read_len_cases oi pos len) as [E | [Hbig E]];
      auto; try lia.
    rewrite E. fold n.
    destruct (Z.eqb_spec (Z.max 0 (n - ucap)) 0) as [Hz | Hz]; [| lia].
    cbn -[to_loff_t]. unfold is_size_t in Hl.
    apply to_loff_t_small. unfold two63 in *. lia.
Qed.

Lemma osfs_read_length_witness :
  let st := mk_state (Fixtures.file_of 2 500) 450 Fixtures.zero_mem in
  r_ret (osfs_read 4096 st 100 100) = Z.min 100 (500 - 450).
Proof.
  intros st.
  destruct (osfs_read_length 4096 st 100 100) as (_ & _ & H).
  - cbn. lia.
  - cbn. lia.
  - unfold two63. lia.
  - unfold is_size_t, two64. lia.
  - apply H; cbn; unfold two63; lia.
Defined.

(** ** Writing, then reading back *)

Lemma seq_prefix (n k s : nat) :
  (n <= k)%nat -> firstn n (seq s k) = seq s n.
Proof.
  revert k s. induction n as [| n IH]; intros k s Hk; [reflexivity |].
  destruct k as [| k]; [lia |].
  cbn. f_equal. apply IH. lia.
Qed.

(** The first [n] bytes of a slice taken where [n] bytes of [buf] were
    just copied are the first [n] bytes of [buf]. *)
Lemma slice_blit_prefix (m : storage) (off : Z) (buf : list byte) (n k : Z) :
  0 <= n <= k -> n <= Z.of_nat (length buf) ->
  firstn (Z.to_nat n) (slice (blit m off buf n) off k) = firstn (Z.to_nat n) buf.
Proof.
  intros Hn Hb. unfold slice.
  rewrite firstn_map, seq_prefix by lia.
  apply (nth_ext _ _ (blit m off buf n (off + Z.of_nat 0)) x00).
  - rewrite length_map, length_seq, length_firstn. lia.
  - intros i Hi. rewrite length_map, length_seq in Hi.
    rewrite (map_nth (fun j => blit m off buf n (off + Z.of_nat j))).
    rewrite seq_nth by exact Hi. cbn [Nat.add].
    rewrite nth_firstn.
    destruct (Nat.ltb_spec i (Z.to_nat n)) as [_ | ?]; [| lia].
    unfold blit.
    destruct (Z.leb_spec off (off + Z.of_nat i)); [| lia].
    destruct (Z.ltb_spec (off + Z.of_nat i) (off + n)); [| lia].
    cbn. f_equal. lia.
Qed.

(** A write that returns a byte count started inside the block and
    copied that many bytes out of the caller's buffer. *)
Lemma osfs_write_count (BLOCK_SIZE : Z) (a : allocator) (tm tc : Z)
    (st : osfs_state) (buf : list byte) (len : Z) :
  0 <= BLOCK_SIZE < two63 ->
  alloc_ok a (i_private (st_inode st)) ->
  0 <= st_pos st < two63 -> is_size_t len ->
  0 <= w_ret (osfs_write BLOCK_SIZE a tm tc st buf len) ->
  let n := write_len BLOCK_SIZE (st_pos st) len in
  n <= Z.of_nat (length buf) /\ 0 <= n < two63 /\
  n = Z.min len (BLOCK_SIZE - st_pos st) /\ st_pos st + n <= BLOCK_SIZE.
Proof.
  intros HB Ha Hp Hl Hret n.
  destruct (Z_lt_le_dec (Z.of_nat (length buf)) n) as [Hf | Hd].
  { rewrite (osfs_write_efault BLOCK_SIZE a tm tc st buf len Ha Hf) in Hret.
    cbn in Hret. lia. }
  rewrite (osfs_write_done BLOCK_SIZE a tm tc st buf len Ha Hd) in Hret.
  cbn -[to_loff_t] in Hret. fold n in Hret.
  assert (Hr : is_size_t n).
  { subst n. unfold write_len.
    destruct (BLOCK_SIZE <? to_size_t (st_pos st + len));
      [apply to_size_t_range | exact Hl]. }
  unfold is_size_t in Hr, Hl.
  assert (Hn : n < two63).
  { destruct (Z_lt_le_dec n two63) as [? | Hbig]; [assumption |].
    rewrite to_loff_t_high in Hret; unfold two63, two64 in *; lia. }
  split; [exact Hd |]. split; [lia |].
  subst n. unfold write_len in *.
  destruct (Z.ltb_spec BLOCK_SIZE (to_size_t (st_pos st + len))) as [Hc | Hc].
  - destruct (Z_le_gt_dec (st_pos st) BLOCK_SIZE) as [Hin | Hout].
    + rewrite (to_size_t_small (BLOCK_SIZE - st_pos st)) in *
        by (unfold two63, two64 in *; lia).
      destruct (Z_lt_le_dec (st_pos st + len) two64) as [Hs | Hs].
      * rewrite to_size_t_small in Hc by lia. lia.
      * exfalso.
        assert (E : to_size_t (st_pos st + len) = st_pos st + len - two64).
        { unfold to_size_t. symmetry. apply (Z.mod_unique _ _ 1).
          - left. unfold two63, two64 in *. lia.
          - ring. }
        rewrite E in Hc. unfold two63, two64 in *. lia.
    + exfalso.
      assert (E : to_size_t (BLOCK_SIZE - st_pos st)
                  = BLOCK_SIZE - st_pos st + two64).
      { unfold to_size_t. symmetry. apply (Z.mod_unique _ _ (-1)).
        - left. unfold two63, two64 in *. lia.
        - ring. }
      rewrite E in Hn. unfold two63, two64 in *. lia.
  - rewrite to_size_t_small in Hc by (unfold two63, two64 in *; lia). lia.
Qed.

Lemma allocated_has_block (a : allocator) (oi : osfs_inode) :
  i_blocks (allocated a oi) <> 0 /\ i_size (allocated a oi) = i_size oi.
Proof.
  unfold allocated.
  destruct (Z.eqb_spec (i_blocks oi) 0); cbn; split; auto; lia.
Qed.

Lemma write_meta_fields (tm tc : Z) (ino : inode) (oi : osfs_inode) (pos' : Z) :
  let oi' := i_private (write_meta tm tc ino oi pos') in
  i_blocks oi' = i_blocks oi /\ i_block oi' = i_block oi /\
  i_size oi' = Z.max (i_size oi) pos'.
Proof.
  unfold write_meta.
  destruct (Z.ltb_spec (i_size oi) pos'); cbn; repeat split; lia.
Qed.

(** Reading back exactly the range that was just copied gives the bytes
    copied. *)
Lemma slice_blit_exact (m : storage) (off : Z) (buf : list byte) (n : Z) :
  0 <= n <= Z.of_nat (length buf) ->
  slice (blit m off buf n) off n = firstn (Z.to_nat n) buf.
Proof.
  intros Hn.
  rewrite <- (slice_blit_prefix m off buf n n) by lia.
  symmetry. apply firstn_all2.
  unfold slice. rewrite length_map, length_seq. lia.
Qed.

(** C4.  Take a file whose size is within the block size, a cursor that
    is a byte offset (not negative) and a write that returns a byte count
    [n].  Then [n] is the smaller of the requested length and the room
    left in the block, and the caller's buffer held that many bytes.  A
    read issued right after it with the cursor put back where the write
    started, asking for at least [n] bytes into a buffer that takes them,
    returns at least [n] bytes, as many bytes as it reports, and its first
    [n] bytes are the first [n] bytes of the caller's write buffer; when
    it asks for exactly [n] bytes it returns [n] and precisely those
    bytes. *)
Theorem osfs_write_read_roundtrip (BLOCK_SIZE : Z) (a : allocator) (tm tc : Z)
    (st : osfs_state) (buf : list byte) (len ucap rlen : Z) :
  0 <= BLOCK_SIZE < two63 ->
  0 <= i_size (i_private (st_inode st)) <= BLOCK_SIZE ->
  alloc_ok a (i_private (st_inode st)) ->
  0 <= st_pos st < two63 -> is_size_t len ->
  let w := osfs_write BLOCK_SIZE a tm tc st buf len in
  let n := w_ret w in
  0 <= n ->
  n <= rlen < two63 -> rlen <= ucap ->
  let r := osfs_read BLOCK_SIZE
             (mk_state (st_inode (w_state w)) (st_pos st) (st_data (w_state w)))
             ucap rlen in
  n = Z.min len (BLOCK_SIZE - st_pos st) /\
  n <= Z.of_nat (length buf) /\
  n <= r_ret r /\
  Z.of_nat (length (r_data r)) = r_ret r /\
  firstn (Z.to_nat n) (r_data r) = firstn (Z.to_nat n) buf /\
  (rlen = n -> r_ret r = n /\ r_data r = firstn (Z.to_nat n) buf).
Proof.
  intros HB Hs Ha Hp Hl w n Hret Hrl Hcap r.
  destruct (osfs_write_count BLOCK_SIZE a tm tc st buf len HB Ha Hp Hl Hret)
    as (Hd & Hn & Emin & Hfit).
  subst r n w.
  rewrite (osfs_write_done BLOCK_SIZE a tm tc st buf len Ha Hd) in *.
  cbn -[to_loff_t write_meta] in *.
  set (n := write_len BLOCK_SIZE (st_pos st) len) in *.
  set (oi := i_private (st_inode st)) in *.
  rewrite (to_loff_t_small n) in * by (unfold two63 in *; lia).
  rewrite (to_loff_t_small (st_pos st + n)) by (unfold two63 in *; lia).
  split; [exact Emin |]. split; [exact Hd |].
  set (ino' := write_meta tm tc (st_inode st) (allocated a oi) (st_pos st + n)).
  destruct (write_meta_fields tm tc (st_inode st) (allocated a oi) (st_pos st + n))
    as (Eb & Ek & Ez).
  fold ino' in Eb, Ek, Ez.
  destruct (allocated_has_block a oi) as [Hnb Hsz]. rewrite Hsz in Ez.
  clearbody ino'.
  unfold osfs_read. cbn -[to_loff_t].
  rewrite Eb. apply Z.eqb_neq in Hnb. rewrite Hnb.
  destruct (Z.leb_spec (i_size (i_private ino')) (st_pos st)) as [He | Hlt].
  - cbn. assert (E0 : n = 0) by lia. rewrite E0.
    repeat split; lia.
  - assert (E : read_len (i_private ino') (st_pos st) rlen
                = Z.min rlen (i_size (i_private ino') - st_pos st)).
    { destruct (read_len_cases (i_private ino') (st_pos st) rlen)
        as [E | [Hbig _]]; unfold is_size_t, two63, two64 in *; lia. }
    rewrite E.
    set (e := Z.min rlen (i_size (i_private ino') - st_pos st)).
    unfold copy_to_user.
    destruct (Z.eqb_spec (Z.max 0 (e - ucap)) 0) as [_ | Hz]; [| lia].
    cbn -[to_loff_t].
    rewrite (to_loff_t_small e) by (unfold two63 in *; lia).
    replace (Z.min e ucap) with e by lia.
    unfold data_block. rewrite Ek.
    split; [lia |]. split.
    { unfold slice. rewrite length_map, length_seq. lia. }
    split.
    { apply slice_blit_prefix; lia. }
    intros Erl. assert (Ee : e = n) by lia. rewrite Ee.
    split; [reflexivity |].
    apply slice_blit_exact. lia.
Qed.

Lemma osfs_write_read_roundtrip_witness :
  let st := mk_state Fixtures.fresh_inode 2 Fixtures.zero_mem in
  let w := osfs_write 16 (Fixtures.grant 1) 7 7 st [x61; x62; x63] 3 in
  let r := osfs_read 16
             (mk_state (st_inode (w_state w)) 2 (st_data (w_state w))) 3 3 in
  w_ret w = 3 /\ r_ret r = 3 /\ r_data r = [x61; x62; x63].
Proof.
  intros st w r.
  destruct (osfs_write_read_roundtrip 16 (Fixtures.grant 1) 7 7 st
              [x61; x62; x63] 3 3 3)
    as (Hn & _ & _ & _ & _ & Hexact).
  - unfold two63. lia.
  - cbn. lia.
  - right. reflexivity.
  - cbn. unfold two63. lia.
  - unfold is_size_t, two64. lia.
  - vm_compute. discriminate.
  - vm_compute. split; [discriminate | reflexivity].
  - lia.
  - change (Z.min 3 (16 - st_pos st)) with 3 in Hn.
    fold w in Hn, Hexact. fold r in Hexact.
    destruct (Hexact (eq_sym Hn)) as [Hr Hdata].
    rewrite Hn in Hr, Hdata.
    split; [exact Hn |]. split; [exact Hr | exact Hdata].
Defined.

(** ** The clamp of step 3 *)

(** Past the end of the block the subtraction [BLOCK_SIZE - *ppos] is
    negative and its conversion to [size_t] is a length of 2^63 bytes or
    more. *)
Lemma write_len_past_block (BLOCK_SIZE pos len : Z) :
  0 <= BLOCK_SIZE -> BLOCK_SIZE < pos < two63 -> 0 <= len < two63 ->
  write_len BLOCK_SIZE pos len = two64 - (pos - BLOCK_SIZE).
Proof.
  intros HB Hp Hl. unfold write_len.
  rewrite (to_size_t_small (pos + len)) by (unfold two63, two64 in *; lia).
  destruct (Z.ltb_spec BLOCK_SIZE (pos + len)) as [_ | ?]; [| lia].
  unfold to_size_t. symmetry. apply (Z.mod_unique _ _ (-1)).
  - left. unfold two63, two64 in *. lia.
  - ring.
Qed.

(** X5.  With the cursor inside the block (its end included) the write
    returns the smaller of the request and the room left; at the end of
    the block that is 0. *)
Lemma osfs_write_clamped_in_block (BLOCK_SIZE : Z) (a : allocator) (tm tc : Z)
    (st : osfs_state) (buf : list byte) (len : Z) :
  0 <= st_pos st <= BLOCK_SIZE -> BLOCK_SIZE < two63 -> 0 <= len < two63 ->
  alloc_ok a (i_private (st_inode st)) ->
  Z.min len (BLOCK_SIZE - st_pos st) <= Z.of_nat (length buf) ->
  let w := osfs_write BLOCK_SIZE a tm tc st buf len in
  w_ret w = Z.min len (BLOCK_SIZE - st_pos st) /\
  w_ret w <= BLOCK_SIZE - st_pos st /\
  st_pos (w_state w) = st_pos st + w_ret w.
Proof.
  intros Hp HB Hl Ha Hbuf w. subst w.
  pose proof (write_len_in_block BLOCK_SIZE (st_pos st) len Hp HB Hl) as E.
  rewrite (osfs_write_done BLOCK_SIZE a tm tc st buf len Ha) by (rewrite E; lia).
  cbn -[to_loff_t write_meta]. rewrite E.
  rewrite !to_loff_t_small by (unfold two63 in *; lia).
  repeat split; lia.
Qed.

(** C1.  With the cursor past the end of the block (and a request that
    fits [ssize_t]), the length step 3 computes is not 0 but
    [2^64 - (cursor - BLOCK_SIZE)]; the write hands that length to
    [copy_from_user] and, the caller's buffer being shorter than 2^63
    bytes, returns [-EFAULT] instead of 0 bytes written. *)
Theorem osfs_write_past_block_length (BLOCK_SIZE : Z) (a : allocator) (tm tc : Z)
    (st : osfs_state) (buf : list byte) (len : Z) :
  0 <= BLOCK_SIZE -> BLOCK_SIZE < st_pos st < two63 -> 0 <= len < two63 ->
  alloc_ok a (i_private (st_inode st)) ->
  Z.of_nat (length buf) < two63 ->
  let w := osfs_write BLOCK_SIZE a tm tc st buf len in
  let n := write_len BLOCK_SIZE (st_pos st) len in
  n = two64 - (st_pos st - BLOCK_SIZE) /\ two63 < n /\
  w_ret w = - EFAULT /\
  (exists off, w_access w = Some (off, n)).
Proof.
  intros HB Hp Hl Ha Hbuf w n. subst w n.
  pose proof (write_len_past_block BLOCK_SIZE (st_pos st) len HB Hp Hl) as E.
  assert (Hbig : two63 < write_len BLOCK_SIZE (st_pos st) len).
  { rewrite E. unfold two63, two64 in *. lia. }
  rewrite (osfs_write_efault BLOCK_SIZE a tm tc st buf len Ha) by lia.
  cbn [w_ret w_access]. repeat split; auto. eexists. reflexivity.
Qed.

Lemma osfs_write_past_block_length_witness :
  let st := mk_state (Fixtures.file_of 2 100) 4097 Fixtures.zero_mem in
  let w := osfs_write 4096 (Fixtures.grant 3) 7 7 st [x41] 1 in
  write_len 4096 4097 1 = two64 - (4097 - 4096) /\
  two63 < write_len 4096 4097 1 /\
  w_ret w = - EFAULT /\
  (exists off, w_access w = Some (off, write_len 4096 4097 1)).
Proof.
  intros st.
  apply (osfs_write_past_block_length 4096 (Fixtures.grant 3) 7 7 st [x41] 1).
  - lia.
  - cbn. unfold two63. lia.
  - unfold two63. lia.
  - left. cbn. lia.
  - cbn. unfold two63. lia.
Defined.

(** ** Staying inside the block *)

(** X7.  A read of a file whose size is within the block size, at a
    cursor that is not negative and for a request that fits [ssize_t],
    copies only from the file's block. *)
Lemma osfs_read_confined (BLOCK_SIZE : Z) (st : osfs_state) (ucap len : Z) :
  0 <= i_size (i_private (st_inode st)) <= BLOCK_SIZE -> BLOCK_SIZE < two63 ->
  0 <= st_pos st -> 0 <= len < two63 ->
  confined BLOCK_SIZE (i_block (i_private (st_inode st)))
    (r_access (osfs_read BLOCK_SIZE st ucap len)) = true.
Proof.
  intros Hs HB Hp Hl. unfold osfs_read.
  set (oi := i_private (st_inode st)) in *.
  destruct (i_blocks oi =? 0); [reflexivity |].
  destruct (Z.leb_spec (i_size oi) (st_pos st)) as [? | Hlt]; [reflexivity |].
  assert (E : read_len oi (st_pos st) len = Z.min len (i_size oi - st_pos st)).
  { destruct (read_len_cases oi (st_pos st) len) as [E | [Hbig _]];
      unfold is_size_t, two63, two64 in *; lia. }
  unfold copy_to_user. rewrite E.
  destruct (negb _); cbn [r_access confined in_block]; unfold data_block;
    apply orb_true_iff; right; apply andb_true_iff; split;
    [apply Z.leb_le | apply Z.leb_le | apply Z.leb_le | apply Z.leb_le]; lia.
Qed.

(** X6.  A write at a cursor inside the block (its end included), for a
    request that fits [ssize_t], copies only into the file's block,
    and the storage outside that block is the same afterwards. *)
Lemma osfs_write_confined (BLOCK_SIZE : Z) (a : allocator) (tm tc : Z)
    (st : osfs_state) (buf : list byte) (len : Z) :
  0 <= st_pos st <= BLOCK_SIZE -> BLOCK_SIZE < two63 -> 0 <= len < two63 ->
  let w := osfs_write BLOCK_SIZE a tm tc st buf len in
  let blk := i_block (i_private (st_inode (w_state w))) in
  confined BLOCK_SIZE blk (w_access w) = true /\
  forall addr,
    addr < blk * BLOCK_SIZE \/ blk * BLOCK_SIZE + BLOCK_SIZE <= addr ->
    st_data (w_state w) addr = st_data st addr.
Proof.
  intros Hp HB Hl w blk. subst blk w.
  set (oi := i_private (st_inode st)).
  pose proof (write_len_in_block BLOCK_SIZE (st_pos st) len Hp HB Hl) as E.
  assert (Hcopy : alloc_ok a oi ->
    let w := osfs_write BLOCK_SIZE a tm tc st buf len in
    w_access w = Some (data_block BLOCK_SIZE (allocated a oi) (st_pos st),
                       write_len BLOCK_SIZE (st_pos st) len) /\
    i_block (i_private (st_inode (w_state w))) = i_block (allocated a oi) /\
    st_data (w_state w)
    = blit (st_data st) (data_block BLOCK_SIZE (allocated a oi) (st_pos st)) buf
        (write_len BLOCK_SIZE (st_pos st) len)).
  { intros Ha.
    destruct (Z_lt_le_dec (Z.of_nat (length buf))
                (write_len BLOCK_SIZE (st_pos st) len)) as [Hf | Hd].
    - rewrite (osfs_write_efault BLOCK_SIZE a tm tc st buf len Ha Hf).
      repeat split.
    - rewrite (osfs_write_done BLOCK_SIZE a tm tc st buf len Ha Hd).
      cbn -[to_loff_t write_meta]. repeat split.
      now destruct (write_meta_fields tm tc (st_inode st) (allocated a oi)
                      (to_loff_t (st_pos st + write_len BLOCK_SIZE (st_pos st) len)))
        as (_ & Ek & _). }
  assert (Hin : alloc_ok a oi ->
    let w := osfs_write BLOCK_SIZE a tm tc st buf len in
    let blk := i_block (i_private (st_inode (w_state w))) in
    confined BLOCK_SIZE blk (w_access w) = true /\
    forall addr,
      addr < blk * BLOCK_SIZE \/ blk * BLOCK_SIZE + BLOCK_SIZE <= addr ->
      st_data (w_state w) addr = st_data st addr).
  { intros Ha. destruct (Hcopy Ha) as (Eacc & Eblk & Emem). cbv zeta.
    rewrite Eacc, Eblk, Emem, E. unfold data_block. split.
    - cbn [confined in_block]. apply orb_true_iff. right.
      apply andb_true_iff. split; apply Z.leb_le; lia.
    - intros addr Hout. unfold blit.
      destruct (Z.leb_spec (i_block (allocated a oi) * BLOCK_SIZE + st_pos st) addr);
        destruct (Z.ltb_spec addr
                    (i_block (allocated a oi) * BLOCK_SIZE + st_pos st
                     + Z.min len (BLOCK_SIZE - st_pos st)));
        cbn; try reflexivity; lia. }
  destruct (Z.eq_dec (i_blocks oi) 0) as [E0 | E0].
  - destruct (Z.eq_dec (alloc_ret a) 0) as [Er | Er].
    + apply Hin. now right.
    + rewrite (osfs_write_enospc BLOCK_SIZE a tm tc st buf len E0 Er).
      split; reflexivity.
  - apply Hin. now left.
Qed.

(** With the cursor past the end of the block (and a request that
    fits [ssize_t]), the byte range the write hands to [copy_from_user]
    as its destination starts beyond the last byte of the file's block and
    is at least 2^63 bytes long: the write is not confined to the block
    [[blk * BLOCK_SIZE, blk * BLOCK_SIZE + BLOCK_SIZE)]. *)
Theorem osfs_write_past_block_escapes (BLOCK_SIZE : Z) (a : allocator) (tm tc : Z)
    (st : osfs_state) (buf : list byte) (len : Z) :
  0 <= BLOCK_SIZE -> BLOCK_SIZE < st_pos st < two63 -> 0 <= len < two63 ->
  alloc_ok a (i_private (st_inode st)) ->
  let w := osfs_write BLOCK_SIZE a tm tc st buf len in
  let blk := i_block (i_private (st_inode (w_state w))) in
  w_access w = Some (blk * BLOCK_SIZE + st_pos st,
                     two64 - (st_pos st - BLOCK_SIZE)) /\
  blk * BLOCK_SIZE + BLOCK_SIZE < blk * BLOCK_SIZE + st_pos st /\
  confined BLOCK_SIZE blk (w_access w) = false.
Proof.
  intros HB Hp Hl Ha w blk. subst blk w.
  set (oi := i_private (st_inode st)) in *.
  pose proof (write_len_past_block BLOCK_SIZE (st_pos st) len HB Hp Hl) as E.
  assert (Hacc :
    let w := osfs_write BLOCK_SIZE a tm tc st buf len in
    w_access w = Some (data_block BLOCK_SIZE (allocated a oi) (st_pos st),
                       write_len BLOCK_SIZE (st_pos st) len) /\
    i_block (i_private (st_inode (w_state w))) = i_block (allocated a oi)).
  { destruct (Z_lt_le_dec (Z.of_nat (length buf))
                (write_len BLOCK_SIZE (st_pos st) len)) as [Hf | Hd].
    - rewrite (osfs_write_efault BLOCK_SIZE a tm tc st buf len Ha Hf).
      split; reflexivity.
    - rewrite (osfs_write_done BLOCK_SIZE a tm tc st buf len Ha Hd).
      cbn -[to_loff_t write_meta write_len]. split; [reflexivity |].
      now destruct (write_meta_fields tm tc (st_inode st) (allocated a oi)
                      (to_loff_t (st_pos st + write_len BLOCK_SIZE (st_pos st) len)))
        as (_ & Ek & _). }
  destruct Hacc as [Eacc Eblk]. rewrite Eacc, Eblk, E. unfold data_block.
  split; [reflexivity |]. split; [lia |].
  cbn [confined in_block]. apply orb_false_iff. split.
  - apply Z.eqb_neq. unfold two63, two64 in *. lia.
  - apply andb_false_iff. right. apply Z.leb_gt. unfold two63, two64 in *. lia.
Qed.

Lemma osfs_write_past_block_escapes_witness :
  let st := mk_state (Fixtures.file_of 2 100) 4097 Fixtures.zero_mem in
  let w := osfs_write 4096 (Fixtures.grant 3) 7 7 st [x41] 1 in
  let blk := i_block (i_private (st_inode (w_state w))) in
  w_access w = Some (blk * 4096 + 4097, two64 - (4097 - 4096)) /\
  blk * 4096 + 4096 < blk * 4096 + 4097 /\
  confined 4096 blk (w_access w) = false.
Proof.
  intros st.
  apply (osfs_write_past_block_escapes 4096 (Fixtures.grant 3) 7 7 st [x41] 1).
  - lia.
  - cbn. unfold two63. lia.
  - unfold two63. lia.
  - left. cbn. lia.
Defined.

(** ** Normal forms of the two operations *)

(** At or past the size a read is the same whether or not the file has
    its block. *)
Lemma osfs_read_eof (BLOCK_SIZE : Z) (st : osfs_state) (ucap len : Z) :
  i_size (i_private (st_inode st)) <= st_pos st ->
  osfs_read BLOCK_SIZE st ucap len = mk_read_out 0 st [] None.
Proof.
  intros H. unfold osfs_read. apply Z.leb_le in H. rewrite H.
  now destruct (i_blocks (i_private (st_inode st)) =? 0).
Qed.

(** Below the size, for a request that fits [ssize_t], the length step
    of the read is the smaller of the request and the bytes left. *)
Lemma read_len_in_file (oi : osfs_inode) (pos len : Z) :
  0 <= pos < i_size oi -> i_size oi < two63 -> 0 <= len < two63 ->
  read_len oi pos len = Z.min len (i_size oi - pos).
Proof.
  intros Hp Hs Hl.
  destruct (read_len_cases oi pos len) as [E | [Hbig _]];
    unfold is_size_t, two63, two64 in *; lia.
Qed.

(** A read below the size into a buffer that takes the bytes. *)
Lemma osfs_read_in_file (BLOCK_SIZE : Z) (st : osfs_state) (ucap len : Z) :
  i_blocks (i_private (st_inode st)) <> 0 ->
  0 <= st_pos st < i_size (i_private (st_inode st)) ->
  i_size (i_private (st_inode st)) < two63 ->
  0 <= len < two63 ->
  Z.min len (i_size (i_private (st_inode st)) - st_pos st) <= ucap ->
  osfs_read BLOCK_SIZE st ucap len
  = let n := Z.min len (i_size (i_private (st_inode st)) - st_pos st) in
    let from := data_block BLOCK_SIZE (i_private (st_inode st)) (st_pos st) in
    mk_read_out n (mk_state (st_inode st) (st_pos st + n) (st_data st))
      (slice (st_data st) from n) (Some (from, n)).
Proof.
  intros Hb Hp Hs Hl Hcap. unfold osfs_read.
  apply Z.eqb_neq in Hb. rewrite Hb.
  destruct (Z.leb_spec (i_size (i_private (st_inode st))) (st_pos st));
    [lia |].
  rewrite read_len_in_file by assumption.
  unfold copy_to_user. cbv zeta.
  set (n := Z.min len (i_size (i_private (st_inode st)) - st_pos st)) in *.
  destruct (Z.eqb_spec (Z.max 0 (n - ucap)) 0) as [_ | Hz]; [| lia].
  cbn [negb].
  rewrite !to_loff_t_small by (unfold two63 in *; lia).
  replace (Z.min n ucap) with n by lia. reflexivity.
Qed.

(** A read below the size into a buffer that is too short. *)
Lemma osfs_read_short_buffer (BLOCK_SIZE : Z) (st : osfs_state) (ucap len : Z) :
  i_blocks (i_private (st_inode st)) <> 0 ->
  0 <= st_pos st < i_size (i_private (st_inode st)) ->
  i_size (i_private (st_inode st)) < two63 ->
  0 <= len < two63 ->
  ucap < Z.min len (i_size (i_private (st_inode st)) - st_pos st) ->
  osfs_read BLOCK_SIZE st ucap len
  = let n := Z.min len (i_size (i_private (st_inode st)) - st_pos st) in
    let from := data_block BLOCK_SIZE (i_private (st_inode st)) (st_pos st) in
    mk_read_out (- EFAULT) st (slice (st_data st) from (Z.min n ucap))
      (Some (from, n)).
Proof.
  intros Hb Hp Hs Hl Hcap. unfold osfs_read.
  apply Z.eqb_neq in Hb. rewrite Hb.
  destruct (Z.leb_spec (i_size (i_private (st_inode st))) (st_pos st));
    [lia |].
  rewrite read_len_in_file by assumption.
  unfold copy_to_user. cbv zeta.
  set (n := Z.min len (i_size (i_private (st_inode st)) - st_pos st)) in *.
  destruct (Z.eqb_spec (Z.max 0 (n - ucap)) 0) as [Hz | _]; [lia |].
  reflexivity.
Qed.

(** A write at a cursor inside the block (its end included) whose bytes
    the caller's buffer supplies. *)
Lemma osfs_write_in_block (BLOCK_SIZE : Z) (a : allocator) (tm tc : Z)
    (st : osfs_state) (buf : list byte) (len : Z) :
  0 <= st_pos st <= BLOCK_SIZE -> BLOCK_SIZE < two63 -> 0 <= len < two63 ->
  alloc_ok a (i_private (st_inode st)) ->
  Z.min len (BLOCK_SIZE - st_pos st) <= Z.of_nat (length buf) ->
  osfs_write BLOCK_SIZE a tm tc st buf len
  = let oi := allocated a (i_private (st_inode st)) in
    let n := Z.min len (BLOCK_SIZE - st_pos st) in
    let to := data_block BLOCK_SIZE oi (st_pos st) in
    mk_write_out n
      (mk_state (write_meta tm tc (st_inode st) oi (st_pos st + n))
         (st_pos st + n) (blit (st_data st) to buf n))
      (Some (to, n)).
Proof.
  intros Hp HB Hl Ha Hbuf.
  pose proof (write_len_in_block BLOCK_SIZE (st_pos st) len Hp HB Hl) as E.
  rewrite (osfs_write_done BLOCK_SIZE a tm tc st buf len Ha) by (rewrite E; lia).
  cbv zeta. rewrite E.
  rewrite !to_loff_t_small by (unfold two63 in *; lia).
  reflexivity.
Qed.

Lemma map_seq_shift (A : Type) (f : nat -> A) (k s n : nat) :
  map f (seq (k + s) n) = map (fun i => f (k + i)%nat) (seq s n).
Proof.
  revert s. induction n as [| n IH]; intros s; [reflexivity |].
  cbn [seq map]. f_equal.
  rewrite <- IH. f_equal. f_equal. lia.
Qed.

(** Slices of adjacent ranges concatenate. *)
Lemma slice_app (m : storage) (off n1 n2 : Z) :
  0 <= n1 -> 0 <= n2 ->
  slice m off (n1 + n2) = slice m off n1 ++ slice m (off + n1) n2.
Proof.
  intros H1 H2. unfold slice.
  rewrite Z2Nat.inj_add by assumption.
  rewrite seq_app, map_app. f_equal.
  cbn [Nat.add].
  rewrite <- (Nat.add_0_r (Z.to_nat n1)).
  rewrite map_seq_shift. apply map_ext.
  intros i. f_equal. lia.
Qed.

(** Slices of storages that agree on the range are equal. *)
Lemma slice_ext (m m' : storage) (off n : Z) :
  (forall addr, off <= addr < off + n -> m' addr = m addr) ->
  slice m' off n = slice m off n.
Proof.
  intros H. unfold slice. apply map_ext_in.
  intros i Hi. apply in_seq in Hi. apply H. lia.
Qed.

(** ** Further properties of [osfs_read] *)

(** X1.  When the caller's buffer takes fewer bytes than the read wants
    to deliver (cursor below the size, request within [ssize_t]), the
    read returns [-EFAULT] and the inode, the storage and the cursor are
    exactly as before: the cursor is not advanced by a partial copy. *)
Theorem osfs_read_fault_keeps_cursor (BLOCK_SIZE : Z) (st : osfs_state)
    (ucap len : Z) :
  i_blocks (i_private (st_inode st)) <> 0 ->
  0 <= st_pos st < i_size (i_private (st_inode st)) ->
  i_size (i_private (st_inode st)) < two63 ->
  0 <= len < two63 ->
  ucap < Z.min len (i_size (i_private (st_inode st)) - st_pos st) ->
  r_ret (osfs_read BLOCK_SIZE st ucap len) = - EFAULT /\
  r_state (osfs_read BLOCK_SIZE st ucap len) = st.
Proof.
  intros Hb Hp Hs Hl Hcap.
  rewrite (osfs_read_short_buffer BLOCK_SIZE st ucap len Hb Hp Hs Hl Hcap).
  split; reflexivity.
Qed.

Lemma osfs_read_fault_keeps_cursor_witness :
  let st := mk_state (Fixtures.file_of 2 500) 450 Fixtures.zero_mem in
  r_ret (osfs_read 4096 st 10 100) = - EFAULT /\
  r_state (osfs_read 4096 st 10 100) = st.
Proof.
  intros st.
  apply (osfs_read_fault_keeps_cursor 4096 st 10 100).
  - cbn. lia.
  - cbn. lia.
  - cbn. unfold two63. lia.
  - unfold two63. lia.
  - cbn. lia.
Defined.

(** X2.  Reading [l1] bytes and then [l2] bytes from where the first read
    stopped gives the same bytes, the same total count and the same final
    state as one read of [l1 + l2] bytes, whether or not the reads run
    into the end of the file (buffers large enough, cursor not
    negative). *)
Theorem osfs_read_split (BLOCK_SIZE : Z) (st : osfs_state)
    (u1 u2 u l1 l2 : Z) :
  0 <= st_pos st ->
  i_size (i_private (st_inode st)) < two63 ->
  0 <= l1 -> 0 <= l2 -> l1 + l2 < two63 ->
  l1 <= u1 -> l2 <= u2 -> l1 + l2 <= u ->
  let r1 := osfs_read BLOCK_SIZE st u1 l1 in
  let r2 := osfs_read BLOCK_SIZE (r_state r1) u2 l2 in
  let r := osfs_read BLOCK_SIZE st u (l1 + l2) in
  r_ret r = r_ret r1 + r_ret r2 /\
  r_data r = r_data r1 ++ r_data r2 /\
  r_state r = r_state r2.
Proof.
  intros Hp Hs H1 H2 H12 Hu1 Hu2 Hu r1 r2 r. subst r r2 r1.
  set (oi := i_private (st_inode st)) in *.
  destruct (Z.eq_dec (i_blocks oi) 0) as [Hb | Hb].
  { rewrite !(osfs_read_no_block BLOCK_SIZE st) by exact Hb.
    cbn [r_state r_ret r_data].
    rewrite ?(osfs_read_no_block BLOCK_SIZE st) by exact Hb.
    repeat split. }
  destruct (Z_le_gt_dec (i_size oi) (st_pos st)) as [He | Hlt].
  { rewrite !(osfs_read_eof BLOCK_SIZE st) by exact He.
    cbn [r_state r_ret r_data].
    rewrite ?(osfs_read_eof BLOCK_SIZE st) by exact He.
    repeat split. }
  rewrite (osfs_read_in_file BLOCK_SIZE st u1 l1) by (fold oi; lia).
  rewrite (osfs_read_in_file BLOCK_SIZE st u (l1 + l2)) by (fold oi; lia).
  fold oi. cbv zeta. cbn [r_state r_ret r_data].
  set (st1 := mk_state (st_inode st)
                (st_pos st + Z.min l1 (i_size oi - st_pos st)) (st_data st)).
  destruct (Z_le_gt_dec (i_size oi) (st_pos st + l1)) as [Hend | Hmore].
  - rewrite (osfs_read_eof BLOCK_SIZE st1) by (cbn; fold oi; lia).
    cbn [r_state r_ret r_data].
    replace (Z.min (l1 + l2) (i_size oi - st_pos st))
      with (Z.min l1 (i_size oi - st_pos st)) by lia.
    rewrite app_nil_r, Z.add_0_r. repeat split.
  - rewrite (osfs_read_in_file BLOCK_SIZE st1 u2 l2)
      by (cbn; fold oi; try assumption; lia).
    cbn [st1 st_inode st_pos st_data]. fold oi. cbv zeta.
    cbn [r_state r_ret r_data].
    replace (Z.min l1 (i_size oi - st_pos st)) with l1 by lia.
    set (n2 := Z.min l2 (i_size oi - (st_pos st + l1))).
    replace (Z.min (l1 + l2) (i_size oi - st_pos st)) with (l1 + n2) by lia.
    split; [reflexivity |]. split.
    + rewrite slice_app by lia. f_equal. f_equal. unfold data_block. ring.
    + f_equal. ring.
Qed.

Lemma osfs_read_split_witness :
  let st := mk_state (Fixtures.file_of 2 500) 450 Fixtures.zero_mem in
  let r1 := osfs_read 4096 st 30 30 in
  let r2 := osfs_read 4096 (r_state r1) 40 40 in
  let r := osfs_read 4096 st 70 (30 + 40) in
  r_ret r = r_ret r1 + r_ret r2 /\
  r_data r = r_data r1 ++ r_data r2 /\
  r_state r = r_state r2.
Proof.
  intros st.
  apply (osfs_read_split 4096 st 30 40 70 30 40);
    try (cbn; unfold two63; lia).
Defined.

(** ** Further properties of [osfs_write] *)

(** X3.  On a file that already has its block a write does not consult
    the allocator: the outcome is the same for every allocator answer,
    and on every path (copy fault included) the block count and the block
    index are the ones from before the call. *)
Theorem osfs_write_keeps_block (BLOCK_SIZE : Z) (a a' : allocator) (tm tc : Z)
    (st : osfs_state) (buf : list byte) (len : Z) :
  i_blocks (i_private (st_inode st)) <> 0 ->
  let w := osfs_write BLOCK_SIZE a tm tc st buf len in
  w = osfs_write BLOCK_SIZE a' tm tc st buf len /\
  i_blocks (i_private (st_inode (w_state w))) = i_blocks (i_private (st_inode st)) /\
  i_block (i_private (st_inode (w_state w))) = i_block (i_private (st_inode st)).
Proof.
  intros Hb w. subst w.
  assert (Ha : forall x, alloc_ok x (i_private (st_inode st))) by (now left).
  assert (Hal : forall x, allocated x (i_private (st_inode st))
                          = i_private (st_inode st)).
  { intros x. unfold allocated. apply Z.eqb_neq in Hb. now rewrite Hb. }
  destruct (Z_lt_le_dec (Z.of_nat (length buf))
              (write_len BLOCK_SIZE (st_pos st) len)) as [Hf | Hd].
  - rewrite !(osfs_write_efault BLOCK_SIZE _ tm tc st buf len (Ha _) Hf).
    cbv zeta. rewrite !Hal. repeat split.
  - rewrite !(osfs_write_done BLOCK_SIZE _ tm tc st buf len (Ha _) Hd).
    cbv zeta. rewrite !Hal. split; [reflexivity |].
    cbn [w_state st_inode].
    destruct (write_meta_fields tm tc (st_inode st) (i_private (st_inode st))
                (to_loff_t (st_pos st + write_len BLOCK_SIZE (st_pos st) len)))
      as (Eb & Ek & _).
    now split.
Qed.

Lemma osfs_write_keeps_block_witness :
  let st := mk_state (Fixtures.file_of 2 100) 4000 Fixtures.zero_mem in
  let w := osfs_write 4096 (Fixtures.grant 3) 7 7 st (repeat x41 200) 200 in
  w = osfs_write 4096 Fixtures.exhausted 7 7 st (repeat x41 200) 200 /\
  i_blocks (i_private (st_inode (w_state w))) = i_blocks (i_private (st_inode st)) /\
  i_block (i_private (st_inode (w_state w))) = i_block (i_private (st_inode st)).
Proof.
  intros st.
  apply (osfs_write_keeps_block 4096 (Fixtures.grant 3) Fixtures.exhausted 7 7
           st (repeat x41 200) 200).
  cbn. lia.
Defined.

(** X4.  After a write at a cursor inside the block whose bytes the
    caller supplies, the storage holds byte [i] of the caller's buffer at
    offset [block * BLOCK_SIZE + cursor + i] for every [i] below the count
    returned, and every other byte of the storage, inside the file's
    block or not, is what it was. *)
Theorem osfs_write_storage (BLOCK_SIZE : Z) (a : allocator) (tm tc : Z)
    (st : osfs_state) (buf : list byte) (len : Z) :
  0 <= st_pos st <= BLOCK_SIZE -> BLOCK_SIZE < two63 -> 0 <= len < two63 ->
  alloc_ok a (i_private (st_inode st)) ->
  Z.min len (BLOCK_SIZE - st_pos st) <= Z.of_nat (length buf) ->
  let w := osfs_write BLOCK_SIZE a tm tc st buf len in
  let to := i_block (i_private (st_inode (w_state w))) * BLOCK_SIZE + st_pos st in
  (forall i, 0 <= i < w_ret w ->
     st_data (w_state w) (to + i) = nth (Z.to_nat i) buf x00) /\
  (forall addr, addr < to \/ to + w_ret w <= addr ->
     st_data (w_state w) addr = st_data st addr).
Proof.
  intros Hp HB Hl Ha Hbuf w to. subst to w.
  rewrite (osfs_write_in_block BLOCK_SIZE a tm tc st buf len Hp HB Hl Ha Hbuf).
  cbv zeta. cbn [w_state w_ret st_inode st_data].
  destruct (write_meta_fields tm tc (st_inode st)
              (allocated a (i_private (st_inode st)))
              (st_pos st + Z.min len (BLOCK_SIZE - st_pos st)))
    as (_ & Ek & _).
  rewrite Ek. unfold data_block, blit.
  set (to := i_block (allocated a (i_private (st_inode st))) * BLOCK_SIZE
             + st_pos st).
  set (n := Z.min len (BLOCK_SIZE - st_pos st)).
  split.
  - intros i Hi.
    destruct (Z.leb_spec to (to + i)); [| lia].
    destruct (Z.ltb_spec (to + i) (to + n)); [| lia].
    cbn. f_equal. lia.
  - intros addr Hout.
    destruct (Z.leb_spec to addr); destruct (Z.ltb_spec addr (to + n));
      cbn; try reflexivity; lia.
Qed.

Lemma osfs_write_storage_witness :
  let st := mk_state Fixtures.fresh_inode 2 Fixtures.zero_mem in
  let w := osfs_write 16 (Fixtures.grant 1) 7 7 st [x61; x62; x63] 3 in
  let to := i_block (i_private (st_inode (w_state w))) * 16 + st_pos st in
  (forall i, 0 <= i < w_ret w ->
     st_data (w_state w) (to + i) = nth (Z.to_nat i) [x61; x62; x63] x00) /\
  (forall addr, addr < to \/ to + w_ret w <= addr ->
     st_data (w_state w) addr = st_data st addr).
Proof.
  intros st.
  apply (osfs_write_storage 16 (Fixtures.grant 1) 7 7 st [x61; x62; x63] 3).
  - cbn. lia.
  - unfold two63. lia.
  - unfold two63. lia.
  - right. reflexivity.
  - cbn. lia.
Defined.

(** X9.  A write that gets past allocation and copy leaves the cursor
    between 0 and the block size, whatever the cursor and the requested
    length were before. *)
Theorem osfs_write_cursor_in_block (BLOCK_SIZE : Z) (a : allocator) (tm tc : Z)
    (st : osfs_state) (buf : list byte) (len : Z) :
  0 <= BLOCK_SIZE < two63 ->
  alloc_ok a (i_private (st_inode st)) ->
  write_len BLOCK_SIZE (st_pos st) len <= Z.of_nat (length buf) ->
  0 <= st_pos (w_state (osfs_write BLOCK_SIZE a tm tc st buf len)) <= BLOCK_SIZE.
Proof.
  intros HB Ha Hd.
  rewrite (osfs_write_done BLOCK_SIZE a tm tc st buf len Ha Hd).
  cbv zeta. cbn [w_state st_pos].
  now apply write_new_pos_range.
Qed.

Lemma osfs_write_cursor_in_block_witness :
  let st := mk_state (Fixtures.file_of 2 100) 4000 Fixtures.zero_mem in
  0 <= st_pos (w_state (osfs_write 4096 (Fixtures.grant 3) 7 7 st
                          (repeat x41 200) 200)) <= 4096.
Proof.
  intros st.
  apply (osfs_write_cursor_in_block 4096 (Fixtures.grant 3) 7 7 st
           (repeat x41 200) 200).
  - unfold two63. lia.
  - left. cbn. lia.
  - vm_compute. discriminate.
Defined.

(** The inode a second write leaves when it follows a first one is the
    inode one write to the final cursor leaves. *)
Lemma write_meta_twice (tm1 tc1 tm tc : Z) (ino : inode) (oi : osfs_inode)
    (p1 p : Z) :
  p1 <= p ->
  let ino1 := write_meta tm1 tc1 ino oi p1 in
  write_meta tm tc ino1 (i_private ino1) p = write_meta tm tc ino oi p.
Proof.
  intros Hle. unfold write_meta, set_times, set_i_size.
  destruct (Z.ltb_spec (i_size oi) p1) as [H1 | H1]; cbn;
    destruct (Z.ltb_spec (i_size oi) p) as [H2 | H2];
    try (destruct (Z.ltb_spec p1 p) as [H3 | H3]); cbn;
    try lia; try reflexivity.
  replace p1 with p by lia. reflexivity.
Qed.

(** Copying [b1] and then [b2] right behind it fills the storage like
    one copy of [b1 ++ b2]; when the first copy was cut short the second
    one is empty. *)
Lemma blit_append (m : storage) (to : Z) (b1 b2 : list byte) (n1 n2 : Z) :
  0 <= n1 <= Z.of_nat (length b1) -> 0 <= n2 ->
  (n1 < Z.of_nat (length b1) -> n2 = 0) ->
  forall addr,
    blit (blit m to b1 n1) (to + n1) b2 n2 addr
    = blit m to (b1 ++ b2) (n1 + n2) addr.
Proof.
  intros H1 H2 Hcut addr. unfold blit.
  destruct (Z.leb_spec (to + n1) addr) as [Ha | Ha];
    destruct (Z.ltb_spec addr (to + n1 + n2)) as [Hb | Hb]; cbn [andb].
  - assert (n1 = Z.of_nat (length b1)) by lia.
    destruct (Z.leb_spec to addr); [| lia].
    destruct (Z.ltb_spec addr (to + (n1 + n2))); [| lia].
    cbn [andb]. rewrite app_nth2 by lia. f_equal. lia.
  - destruct (Z.leb_spec to addr); destruct (Z.ltb_spec addr (to + n1));
      destruct (Z.ltb_spec addr (to + (n1 + n2))); cbn [andb];
      try reflexivity; lia.
  - destruct (Z.leb_spec to addr); destruct (Z.ltb_spec addr (to + n1));
      destruct (Z.ltb_spec addr (to + (n1 + n2))); cbn [andb];
      try reflexivity; try lia.
    rewrite app_nth1 by lia. reflexivity.
  - lia.
Qed.

(** X10.  Two writes in a row, the second starting where the first
    stopped, leave the same inode, cursor and storage, and return the same
    total, as one write of the two buffers joined (with the time stamps
    of the second call); this holds when the data fits the block and
    when it is cut at the block's end. *)
Theorem osfs_write_append (BLOCK_SIZE : Z) (a a2 : allocator)
    (tm1 tc1 tm tc : Z) (st : osfs_state) (b1 b2 : list byte) :
  0 <= st_pos st <= BLOCK_SIZE -> BLOCK_SIZE < two63 ->
  alloc_ok a (i_private (st_inode st)) ->
  Z.of_nat (length b1) + Z.of_nat (length b2) < two63 ->
  let l1 := Z.of_nat (length b1) in
  let l2 := Z.of_nat (length b2) in
  let w1 := osfs_write BLOCK_SIZE a tm1 tc1 st b1 l1 in
  let w2 := osfs_write BLOCK_SIZE a2 tm tc (w_state w1) b2 l2 in
  let w := osfs_write BLOCK_SIZE a tm tc st (b1 ++ b2) (l1 + l2) in
  w_ret w = w_ret w1 + w_ret w2 /\
  st_inode (w_state w) = st_inode (w_state w2) /\
  st_pos (w_state w) = st_pos (w_state w2) /\
  forall addr, st_data (w_state w) addr = st_data (w_state w2) addr.
Proof.
  intros Hp HB Ha Hlen l1 l2 w1 w2 w. subst w w2 w1.
  set (oi := i_private (st_inode st)) in *.
  rewrite (osfs_write_in_block BLOCK_SIZE a tm1 tc1 st b1 l1)
    by (fold oi; auto; lia).
  rewrite (osfs_write_in_block BLOCK_SIZE a tm tc st (b1 ++ b2) (l1 + l2))
    by (fold oi; auto; rewrite ?length_app; lia).
  fold oi. cbv zeta. cbn [w_state w_ret].
  set (oiA := allocated a oi).
  set (n1 := Z.min l1 (BLOCK_SIZE - st_pos st)).
  set (n := Z.min (l1 + l2) (BLOCK_SIZE - st_pos st)).
  set (ino1 := write_meta tm1 tc1 (st_inode st) oiA (st_pos st + n1)).
  set (st1 := mk_state ino1 (st_pos st + n1)
                (blit (st_data st) (data_block BLOCK_SIZE oiA (st_pos st)) b1 n1)).
  destruct (write_meta_fields tm1 tc1 (st_inode st) oiA (st_pos st + n1))
    as (Eb & Ek & _).
  fold ino1 in Eb, Ek.
  destruct (allocated_has_block a oi) as [Hnb _]. fold oiA in Hnb.
  assert (Ha2 : alloc_ok a2 (i_private (st_inode st1))).
  { left. cbn [st1 st_inode]. now rewrite Eb. }
  assert (Hal : allocated a2 (i_private ino1) = i_private ino1).
  { unfold allocated. rewrite Eb. apply Z.eqb_neq in Hnb. now rewrite Hnb. }
  rewrite (osfs_write_in_block BLOCK_SIZE a2 tm tc st1 b2 l2)
    by (cbn [st1 st_pos]; auto; lia).
  cbv zeta. cbn [st1 st_inode st_pos st_data w_state w_ret].
  rewrite Hal.
  set (n2 := Z.min l2 (BLOCK_SIZE - (st_pos st + n1))).
  assert (En : n = n1 + n2) by lia.
  split; [exact En |]. split; [| split].
  - replace (st_pos st + n) with (st_pos st + n1 + n2) by lia.
    symmetry.
    apply (write_meta_twice tm1 tc1 tm tc (st_inode st) oiA). lia.
  - lia.
  - intros addr. unfold data_block. rewrite Ek.
    replace n with (n1 + n2) by lia.
    replace (i_block oiA * BLOCK_SIZE + (st_pos st + n1))
      with (i_block oiA * BLOCK_SIZE + st_pos st + n1) by ring.
    symmetry. apply blit_append; lia.
Qed.

Lemma osfs_write_append_witness :
  let st := mk_state Fixtures.fresh_inode 10 Fixtures.zero_mem in
  let w1 := osfs_write 16 (Fixtures.grant 1) 5 5 st [x61; x62; x63; x64] 4 in
  let w2 := osfs_write 16 Fixtures.exhausted 7 8 (w_state w1) [x65; x66; x67] 3 in
  let w := osfs_write 16 (Fixtures.grant 1) 7 8 st
             ([x61; x62; x63; x64] ++ [x65; x66; x67]) (4 + 3) in
  w_ret w = w_ret w1 + w_ret w2 /\
  st_inode (w_state w) = st_inode (w_state w2) /\
  st_pos (w_state w) = st_pos (w_state w2) /\
  forall addr, st_data (w_state w) addr = st_data (w_state w2) addr.
Proof.
  intros st.
  apply (osfs_write_append 16 (Fixtures.grant 1) Fixtures.exhausted 5 5 7 8 st
           [x61; x62; x63; x64] [x65; x66; x67]).
  - cbn. lia.
  - unfold two63. lia.
  - right. reflexivity.
  - cbn. unfold two63. lia.
Defined.

(** X11.  A write that starts past the recorded size (still inside the
    block) sets the size to the end of the written range without
    touching the bytes between the old size and the cursor: a read of
    that gap then succeeds and returns what the storage held there before
    the write, bytes that no write to this file put there.  A write of
    length 0 is enough. *)
Theorem osfs_write_exposes_gap (BLOCK_SIZE : Z) (a : allocator) (tm tc : Z)
    (st : osfs_state) (buf : list byte) (len ucap : Z) :
  i_blocks (i_private (st_inode st)) <> 0 ->
  0 <= i_size (i_private (st_inode st)) < st_pos st ->
  st_pos st <= BLOCK_SIZE -> BLOCK_SIZE < two63 ->
  0 <= len < two63 ->
  Z.min len (BLOCK_SIZE - st_pos st) <= Z.of_nat (length buf) ->
  st_pos st - i_size (i_private (st_inode st)) <= ucap ->
  let oi := i_private (st_inode st) in
  let gap := st_pos st - i_size oi in
  let w := osfs_write BLOCK_SIZE a tm tc st buf len in
  let r := osfs_read BLOCK_SIZE
             (mk_state (st_inode (w_state w)) (i_size oi) (st_data (w_state w)))
             ucap gap in
  i_size (i_private (st_inode (w_state w))) = st_pos st + w_ret w /\
  r_ret r = gap /\
  r_data r = slice (st_data st) (i_block oi * BLOCK_SIZE + i_size oi) gap.
Proof.
  intros Hb Hs Hp HB Hl Hbuf Hcap oi gap w r. subst r w gap.
  fold oi in Hb, Hs, Hcap.
  assert (Ha : alloc_ok a oi) by (now left).
  assert (Hal : allocated a oi = oi).
  { unfold allocated. apply Z.eqb_neq in Hb. now rewrite Hb. }
  rewrite (osfs_write_in_block BLOCK_SIZE a tm tc st buf len)
    by (fold oi; auto; lia).
  fold oi. cbv zeta. rewrite Hal. cbn [w_state w_ret st_inode st_data].
  set (n := Z.min len (BLOCK_SIZE - st_pos st)).
  set (ino' := write_meta tm tc (st_inode st) oi (st_pos st + n)).
  destruct (write_meta_fields tm tc (st_inode st) oi (st_pos st + n))
    as (Eb & Ek & Ez).
  fold ino' in Eb, Ek, Ez.
  assert (Ez' : i_size (i_private ino') = st_pos st + n) by lia.
  split; [exact Ez' |].
  set (m' := blit (st_data st) (data_block BLOCK_SIZE oi (st_pos st)) buf n).
  rewrite (osfs_read_in_file BLOCK_SIZE (mk_state ino' (i_size oi) m'))
    by (cbn [st_inode st_pos]; rewrite ?Eb, ?Ez'; auto; unfold two63 in *; lia).
  cbv zeta. cbn [st_inode st_pos st_data r_ret r_data].
  rewrite Ez'.
  replace (Z.min (st_pos st - i_size oi) (st_pos st + n - i_size oi))
    with (st_pos st - i_size oi) by lia.
  split; [reflexivity |].
  unfold data_block. rewrite Ek.
  apply slice_ext. intros addr Haddr. unfold m', blit, data_block.
  destruct (Z.leb_spec (i_block oi * BLOCK_SIZE + st_pos st) addr);
    [lia | reflexivity].
Qed.

Lemma osfs_write_exposes_gap_witness :
  let st := mk_state (Fixtures.file_of 2 100) 300 Fixtures.zero_mem in
  let w := osfs_write 4096 (Fixtures.grant 3) 7 7 st [] 0 in
  let r := osfs_read 4096
             (mk_state (st_inode (w_state w)) 100 (st_data (w_state w)))
             200 (300 - 100) in
  i_size (i_private (st_inode (w_state w))) = 300 + w_ret w /\
  r_ret r = 300 - 100 /\
  r_data r = slice Fixtures.zero_mem (2 * 4096 + 100) (300 - 100).
Proof.
  intros st.
  apply (osfs_write_exposes_gap 4096 (Fixtures.grant 3) 7 7 st [] 0 200);
    try (cbn; unfold two63; lia).
Defined.

(** X12.  The two copies of the size, [inode->i_size] and
    [osfs_inode->i_size], stay equal: if they agree before a write or a
    read, they agree after it, on every path. *)
Theorem osfs_size_sync (BLOCK_SIZE : Z) (a : allocator) (tm tc : Z)
    (st : osfs_state) (buf : list byte) (ucap len : Z) :
  vfs_i_size (st_inode st) = i_size (i_private (st_inode st)) ->
  let iw := st_inode (w_state (osfs_write BLOCK_SIZE a tm tc st buf len)) in
  let ir := st_inode (r_state (osfs_read BLOCK_SIZE st ucap len)) in
  vfs_i_size iw = i_size (i_private iw) /\
  vfs_i_size ir = i_size (i_private ir).
Proof.
  intros Heq iw ir. subst iw ir.
  set (oi := i_private (st_inode st)) in *.
  split.
  - assert (Hs : i_size (allocated a oi) = i_size oi)
      by apply allocated_has_block.
    assert (Hcopy : alloc_ok a oi ->
      let iw := st_inode (w_state (osfs_write BLOCK_SIZE a tm tc st buf len)) in
      vfs_i_size iw = i_size (i_private iw)).
    { intros Ha.
      destruct (Z_lt_le_dec (Z.of_nat (length buf))
                  (write_len BLOCK_SIZE (st_pos st) len)) as [Hf | Hd].
      - rewrite (osfs_write_efault BLOCK_SIZE a tm tc st buf len Ha Hf).
        cbv zeta. cbn [w_state st_inode vfs_i_size i_private]. fold oi.
        now rewrite Hs.
      - rewrite (osfs_write_done BLOCK_SIZE a tm tc st buf len Ha Hd).
        cbv zeta. cbn [w_state st_inode]. fold oi.
        unfold write_meta. rewrite Hs.
        destruct (i_size oi <? _); cbn; [reflexivity |].
        now rewrite Hs. }
    destruct (Z.eq_dec (i_blocks oi) 0) as [E0 | E0].
    + destruct (Z.eq_dec (alloc_ret a) 0) as [Er | Er].
      * apply Hcopy. now right.
      * now rewrite (osfs_write_enospc BLOCK_SIZE a tm tc st buf len E0 Er).
    + apply Hcopy. now left.
  - destruct (osfs_read_keeps_inode BLOCK_SIZE st ucap len) as [E _].
    now rewrite E.
Qed.

Lemma osfs_size_sync_witness :
  let st := mk_state (Fixtures.file_of 2 100) 4000 Fixtures.zero_mem in
  let iw := st_inode (w_state (osfs_write 4096 (Fixtures.grant 3) 7 7 st
                                 (repeat x41 200) 200)) in
  let ir := st_inode (r_state (osfs_read 4096 st 50 200)) in
  vfs_i_size iw = i_size (i_private iw) /\
  vfs_i_size ir = i_size (i_private ir).
Proof.
  intros st.
  apply (osfs_size_sync 4096 (Fixtures.grant 3) 7 7 st (repeat x41 200) 50 200).
  reflexivity.
Defined.

(** X13.  The time stamps and the dirty mark change exactly when a write
    gets past allocation and copy: such a write sets [__i_mtime] and
    [__i_ctime] to the two clock readings and marks the inode dirty,
    whatever the cursor and the length (0 bytes included); a write that
    ends in an allocation error or a copy fault leaves all three as they
    were. *)
Theorem osfs_write_stamps (BLOCK_SIZE : Z) (a : allocator) (tm tc : Z)
    (st : osfs_state) (buf : list byte) (len : Z) :
  let oi := i_private (st_inode st) in
  let n := write_len BLOCK_SIZE (st_pos st) len in
  let ino' := st_inode (w_state (osfs_write BLOCK_SIZE a tm tc st buf len)) in
  (alloc_ok a oi /\ n <= Z.of_nat (length buf) ->
     __i_mtime (i_private ino') = tm /\ __i_ctime (i_private ino') = tc /\
     i_dirty ino' = true) /\
  (~ (alloc_ok a oi /\ n <= Z.of_nat (length buf)) ->
     __i_mtime (i_private ino') = __i_mtime oi /\
     __i_ctime (i_private ino') = __i_ctime oi /\
     i_dirty ino' = i_dirty (st_inode st)).
Proof.
  intros oi n ino'. subst ino'. split.
  - intros [Ha Hd].
    rewrite (osfs_write_done BLOCK_SIZE a tm tc st buf len Ha Hd).
    cbv zeta. cbn [w_state st_inode]. unfold write_meta.
    destruct (i_size _ <? _); cbn; repeat split.
  - intros Hno.
    destruct (Z.eq_dec (i_blocks oi) 0) as [E0 | E0];
      [destruct (Z.eq_dec (alloc_ret a) 0) as [Er | Er] |].
    + assert (Ha : alloc_ok a oi) by (now right).
      assert (Hf : Z.of_nat (length buf) < n) by (apply Z.nle_gt; tauto).
      rewrite (osfs_write_efault BLOCK_SIZE a tm tc st buf len Ha Hf).
      cbv zeta. cbn [w_state st_inode i_private i_dirty]. fold oi.
      unfold allocated. rewrite E0. cbn. repeat split.
    + rewrite (osfs_write_enospc BLOCK_SIZE a tm tc st buf len E0 Er).
      repeat split.
    + assert (Ha : alloc_ok a oi) by (now left).
      assert (Hf : Z.of_nat (length buf) < n) by (apply Z.nle_gt; tauto).
      rewrite (osfs_write_efault BLOCK_SIZE a tm tc st buf len Ha Hf).
      cbv zeta. cbn [w_state st_inode i_private i_dirty]. fold oi.
      unfold allocated. apply Z.eqb_neq in E0. rewrite E0. repeat split.
Qed.

Lemma osfs_write_stamps_witness :
  let st := mk_state (Fixtures.file_of 2 100) 4000 Fixtures.zero_mem in
  let ino' := st_inode (w_state (osfs_write 4096 (Fixtures.grant 3) 11 12 st
                                   (repeat x41 200) 200)) in
  __i_mtime (i_private ino') = 11 /\ __i_ctime (i_private ino') = 12 /\
  i_dirty ino' = true.
Proof.
  intros st.
  apply (osfs_write_stamps 4096 (Fixtures.grant 3) 11 12 st (repeat x41 200) 200).
  split.
  - left. cbn. lia.
  - vm_compute. discriminate.
Defined.

(** X14.  A write does not disturb what the file already held outside
    the written range: a read of [k] bytes at cursor [c], lying within
    the old size and not overlapping the bytes written, returns the same
    count and the same bytes after the write as before it. *)
Theorem osfs_write_preserves_reads (BLOCK_SIZE : Z) (a : allocator) (tm tc : Z)
    (st : osfs_state) (buf : list byte) (len ucap c k : Z) :
  i_blocks (i_private (st_inode st)) <> 0 ->
  0 <= i_size (i_private (st_inode st)) <= BLOCK_SIZE ->
  0 <= st_pos st <= BLOCK_SIZE -> BLOCK_SIZE < two63 ->
  0 <= len < two63 ->
  Z.min len (BLOCK_SIZE - st_pos st) <= Z.of_nat (length buf) ->
  0 <= c -> 0 < k -> c + k <= i_size (i_private (st_inode st)) -> k <= ucap ->
  c + k <= st_pos st \/ st_pos st + Z.min len (BLOCK_SIZE - st_pos st) <= c ->
  let w := osfs_write BLOCK_SIZE a tm tc st buf len in
  let before := osfs_read BLOCK_SIZE
                  (mk_state (st_inode st) c (st_data st)) ucap k in
  let after := osfs_read BLOCK_SIZE
                 (mk_state (st_inode (w_state w)) c (st_data (w_state w)))
                 ucap k in
  r_ret before = k /\ r_ret after = k /\ r_data after = r_data before.
Proof.
  intros Hb Hs Hp HB Hl Hbuf Hc Hk Hck Hcap Hdis w before after.
  subst after before w.
  set (oi := i_private (st_inode st)) in *.
  assert (Ha : alloc_ok a oi) by (now left).
  assert (Hal : allocated a oi = oi).
  { unfold allocated. apply Z.eqb_neq in Hb. now rewrite Hb. }
  rewrite (osfs_write_in_block BLOCK_SIZE a tm tc st buf len)
    by (fold oi; auto; lia).
  fold oi. cbv zeta. rewrite Hal. cbn [w_state st_inode st_data].
  set (n := Z.min len (BLOCK_SIZE - st_pos st)) in *.
  set (ino' := write_meta tm tc (st_inode st) oi (st_pos st + n)).
  destruct (write_meta_fields tm tc (st_inode st) oi (st_pos st + n))
    as (Eb & Ek & Ez).
  fold ino' in Eb, Ek, Ez.
  set (m' := blit (st_data st) (data_block BLOCK_SIZE oi (st_pos st)) buf n).
  rewrite (osfs_read_in_file BLOCK_SIZE (mk_state (st_inode st) c (st_data st)))
    by (cbn [st_inode st_pos]; fold oi; auto; unfold two63 in *; lia).
  rewrite (osfs_read_in_file BLOCK_SIZE (mk_state ino' c m'))
    by (cbn [st_inode st_pos]; rewrite ?Eb, ?Ez; auto; unfold two63 in *; lia).
  cbv zeta. cbn [st_inode st_pos st_data r_ret r_data]. fold oi.
  rewrite Ez.
  replace (Z.min k (i_size oi - c)) with k by lia.
  replace (Z.min k (Z.max (i_size oi) (st_pos st + n) - c)) with k by lia.
  split; [reflexivity |]. split; [reflexivity |].
  unfold data_block. rewrite Ek.
  apply slice_ext. intros addr Haddr. unfold m', blit, data_block.
  destruct (Z.leb_spec (i_block oi * BLOCK_SIZE + st_pos st) addr);
    destruct (Z.ltb_spec addr (i_block oi * BLOCK_SIZE + st_pos st + n));
    cbn [andb]; try reflexivity; lia.
Qed.

Lemma osfs_write_preserves_reads_witness :
  let st := mk_state (Fixtures.file_of 2 100) 40 Fixtures.zero_mem in
  let w := osfs_write 4096 (Fixtures.grant 3) 7 7 st [x61; x62; x63] 3 in
  let before := osfs_read 4096 (mk_state (st_inode st) 10 (st_data st)) 20 20 in
  let after := osfs_read 4096
                 (mk_state (st_inode (w_state w)) 10 (st_data (w_state w)))
                 20 20 in
  r_ret before = 20 /\ r_ret after = 20 /\ r_data after = r_data before.
Proof.
  intros st.
  apply (osfs_write_preserves_reads 4096 (Fixtures.grant 3) 7 7 st
           [x61; x62; x63] 3 20 10 20);
    try (cbn; unfold two63; lia).
Defined.

(** ** Concrete instances of the block-confinement lemmas *)

Lemma osfs_write_clamped_in_block_witness :
  let st := mk_state (Fixtures.file_of 2 100) 4000 Fixtures.zero_mem in
  let w := osfs_write 4096 (Fixtures.grant 3) 7 7 st (repeat x41 200) 200 in
  w_ret w = Z.min 200 (4096 - 4000) /\
  w_ret w <= 4096 - 4000 /\
  st_pos (w_state w) = 4000 + w_ret w.
Proof.
  intros st.
  apply (osfs_write_clamped_in_block 4096 (Fixtures.grant 3) 7 7 st
           (repeat x41 200) 200).
  - cbn. lia.
  - unfold two63. lia.
  - unfold two63. lia.
  - left. cbn. lia.
  - cbn. lia.
Defined.

Lemma osfs_write_confined_witness :
  let st := mk_state (Fixtures.file_of 2 100) 4000 Fixtures.zero_mem in
  let w := osfs_write 4096 (Fixtures.grant 3) 7 7 st (repeat x41 200) 200 in
  let blk := i_block (i_private (st_inode (w_state w))) in
  confined 4096 blk (w_access w) = true /\
  forall addr,
    addr < blk * 4096 \/ blk * 4096 + 4096 <= addr ->
    st_data (w_state w) addr = st_data st addr.
Proof.
  intros st.
  apply (osfs_write_confined 4096 (Fixtures.grant 3) 7 7 st (repeat x41 200) 200).
  - cbn. lia.
  - unfold two63. lia.
  - unfold two63. lia.
Defined.

Lemma osfs_read_confined_witness :
  let st := mk_state (Fixtures.file_of 2 500) 450 Fixtures.zero_mem in
  confined 4096 (i_block (i_private (st_inode st)))
    (r_access (osfs_read 4096 st 100 100)) = true.
Proof.
  intros st.
  apply (osfs_read_confined 4096 st 100 100).
  - cbn. lia.
  - unfold two63. lia.
  - cbn. lia.
  - unfold two63. lia.
Defined.

(** ** Which bytes the two operations touch *)






